(** * Sensor dashboard: normalisation and status evaluation

    A shallow embedding of the data path of [sensor_dashboard.py]:
    [process_data], [check_missed_updates], [extract_signal_strength],
    [get_status_text] and the per-row [attempts] derivation of [main].

    Numbers.  The script computes with Python floats.  In the cells of a
    frame a finite float is embedded as a rational ([Q]) and NaN, the pandas
    marker of a missing value, as [None]; rounding and the infinities are
    outside that embedding.  The freshness check, whose thresholds turn on
    the rounding, is also given in binary64 doubles ([Binary64]), next to
    its reading in exact hours ([Freshness]).  Python integers are [Z].
    Text is [string], one [ascii] per byte; the signal pattern, whose
    classes are Unicode's, is matched over code points ([Pattern],
    [CodePoints]) and, for ASCII text, over bytes ([Signal]). *)

From Stdlib Require Import ZArith QArith Qround List Bool Lia.
From Stdlib Require Import Ascii String DecimalString.
From Stdlib Require Import DecimalPos DecimalZ.
From Stdlib Require Floats.
Import ListNotations.

Local Open Scope Z_scope.
Local Open Scope string_scope.

(** ** Status codes *)

Module Status.

(** A pandas cell of a numeric column: a finite float or NaN. *)
Definition number := option Q.

(** [pd.isna] / [pd.notna] on such a cell. *)
Definition isna (x : number) : bool :=
  match x with None => true | Some _ => false end.

Definition notna (x : number) : bool := negb (isna x).

(** Python's [int(x)] on a finite float: truncation toward zero. *)
Definition int (q : Q) : Z := Z.quot (Qnum q) (Zpos (Qden q)).

(** Python's [str(n)] on an integer. *)
Definition str (n : Z) : string := NilZero.string_of_int (Z.to_int n).

(** [x in [1, 2]]: membership by [==]; NaN is equal to nothing. *)
Definition in_1_2 (x : number) : bool :=
  match x with
  | None => false
  | Some q => Qeq_bool q 1 || Qeq_bool q 2
  end.

(** The dictionary [status_map] of [get_status_text], as [dict.get] sees it. *)
Definition status_map (k : Z) : option string :=
  match k with
  | 1 => Some "🔄 Upload Retry Success"
  | 2 => Some "📶 WiFi Retry Success"
  | 3 => Some "🔋 Low Battery Warning"
  | 4 => Some "✅ Normal Reading"
  | _ => None
  end.

Definition get_status_text (status_code : number) : string :=
  match status_code with
  | None => "Unknown"
  | Some x =>
      match status_map (int x) with
      | Some label => label
      | None => "Code: " ++ str (int x)
      end
  end.

(** The lambda stored in [df['attempts']]:
    [2 if x in [1, 2] else 1 if pd.notna(x) else 1]. *)
Definition attempts (x : number) : Z :=
  if in_1_2 x then 2 else if notna x then 1 else 1.

(** The lambda stored in [df['status_color']]. *)
Definition status_color (x : number) : string :=
  if in_1_2 x then "red" else if notna x then "green" else "blue".

(** [needle in hay] on text. *)
Fixpoint contains (needle hay : string) : bool :=
  prefix needle hay ||
  match hay with
  | EmptyString => false
  | String _ rest => contains needle rest
  end.

End Status.

(** ** Raw feed batches *)

Module Json.

(** A value of a feed entry as the API sends it: text, a number or null. *)
Inductive value : Type :=
| Null
| Str (s : string)
| Num (q : Q).

(** A JSON object, keys in the order of the document. *)
Definition object := list (string * value).

Fixpoint get (k : string) (o : object) : option value :=
  match o with
  | [] => None
  | (k', v) :: rest => if String.eqb k k' then Some v else get k rest
  end.

Definition keys (o : object) : list string := map fst o.

End Json.

(** The decoded response body: [feeds] is [None] when the key is missing. *)
Record RawFeedBatch : Type := { feeds : option (list Json.object) }.

(** ** Exceptions and results *)

Inductive exn : Type :=
| KeyError (key : string)
| ValueError
| AttributeError
| OverflowError
| TypeError.

Inductive outcome (A : Type) : Type :=
| Returned (a : A)
| Raised (e : exn).

Arguments Returned {A} a.
Arguments Raised {A} e.

Definition bind {A B : Type} (m : outcome A) (k : A -> outcome B) : outcome B :=
  match m with
  | Returned a => k a
  | Raised e => Raised e
  end.

Notation "x <- m ;; k" := (bind m (fun x => k))
  (at level 61, m at next level, right associativity).

Fixpoint traverse {A B : Type} (f : A -> outcome B) (l : list A) : outcome (list B) :=
  match l with
  | [] => Returned []
  | a :: rest =>
      b <- f a ;;
      bs <- traverse f rest ;;
      Returned (b :: bs)
  end.

(** ** Data frames *)

(** A time stamp: nanoseconds on the epoch scale and the zone it carries, if
    any.  A naive stamp counts its own clock reading on that scale. *)
Record Timestamp : Type := { epoch_ns : Z; tz : option Z }.

(** What a cell of a frame can hold.  [NA] stands for [None], NaN and NaT:
    [pd.isna] is true of exactly these. *)
Inductive cell : Type :=
| NA
| Text (s : string)
| Number (q : Q)
| Stamp (t : Timestamp).

Definition isna (c : cell) : bool :=
  match c with NA => true | _ => false end.

Definition notna (c : cell) : bool := negb (isna c).

(** A frame is column-oriented: each label with its cells, one per row. *)
Record DataFrame : Type := {
  nrows : nat;
  columns : list (string * list cell)
}.

Module Frame.

(** [df.empty]: no row or no column. *)
Definition empty (df : DataFrame) : bool :=
  Nat.eqb (nrows df) 0 ||
  match columns df with [] => true | _ :: _ => false end.

Fixpoint find (k : string) (cols : list (string * list cell)) : option (list cell) :=
  match cols with
  | [] => None
  | (k', c) :: rest => if String.eqb k k' then Some c else find k rest
  end.

(** [k in df.columns] *)
Definition has (k : string) (df : DataFrame) : bool :=
  match find k (columns df) with Some _ => true | None => false end.

(** [df[k]] *)
Definition getitem (k : string) (df : DataFrame) : outcome (list cell) :=
  match find k (columns df) with
  | Some c => Returned c
  | None => Raised (KeyError k)
  end.

Fixpoint replace (k : string) (c : list cell) (cols : list (string * list cell))
  : list (string * list cell) :=
  match cols with
  | [] => [(k, c)]
  | (k', c') :: rest =>
      if String.eqb k k' then (k', c) :: rest else (k', c') :: replace k c rest
  end.

(** [df[k] = c]: overwrite the column in place, or append it. *)
Definition setitem (k : string) (c : list cell) (df : DataFrame) : DataFrame :=
  {| nrows := nrows df; columns := replace k c (columns df) |}.

Fixpoint union_keys (seen : list string) (ks : list string) : list string :=
  match ks with
  | [] => seen
  | k :: rest =>
      if existsb (String.eqb k) seen then union_keys seen rest
      else union_keys (seen ++ [k]) rest
  end.

(** The column labels of [pd.DataFrame(feeds)]: every key, by first
    appearance. *)
Definition labels (feeds : list Json.object) : list string :=
  fold_left (fun seen o => union_keys seen (Json.keys o)) feeds [].

(** The cell of an entry under a label: its value, [NA] for null and for a
    key the entry lacks. *)
Definition of_json (v : option Json.value) : cell :=
  match v with
  | Some (Json.Str s) => Text s
  | Some (Json.Num q) => Number q
  | Some Json.Null | None => NA
  end.

(** [pd.DataFrame(feeds)] on a list of dictionaries. *)
Definition of_records (feeds : list Json.object) : DataFrame :=
  {| nrows := List.length feeds;
     columns :=
       map (fun k => (k, map (fun o => of_json (Json.get k o)) feeds)) (labels feeds) |}.

End Frame.

(** ** The normaliser *)

(** The texts [pd.to_datetime] reads as a missing stamp without looking at
    any format: the empty text and the members of pandas' [nat_strings]. *)
Definition is_nat_string (s : string) : bool :=
  match s with
  | EmptyString => true
  | String _ _ => existsb (String.eqb s) ["NaT"; "nat"; "NAT"; "nan"; "NaN"; "NAN"]
  end.

Section Normalizer.

(** The library readers [process_data] calls, one value at a time:
    [pd.to_datetime] on a string that is no spelling of NaT (it raises where
    this gives [None]), [pd.to_numeric] on a string, and
    [urllib.parse.unquote_plus].  [pd.to_datetime] fixes how it reads the
    strings of a column from the column itself (the format it infers from
    the first stamp): [to_datetime_scalar] is that reading, and what is
    proved of every reader holds of the one a batch gets. *)
Variable to_datetime_scalar : string -> option Timestamp.
Variable to_numeric_scalar : string -> option Q.
Variable unquote_plus : string -> string.

(** [pd.to_datetime] with its default [errors='raise']: null and the
    spellings of NaT give NaT and keep their row, any other text is read or
    raises, and a bare number counts nanoseconds. *)
Definition to_datetime_cell (c : cell) : outcome cell :=
  match c with
  | NA => Returned NA
  | Text s =>
      if is_nat_string s then Returned NA
      else
        match to_datetime_scalar s with
        | Some t => Returned (Stamp t)
        | None => Raised ValueError
        end
  | Number q => Returned (Stamp {| epoch_ns := Status.int q; tz := None |})
  | Stamp t => Returned (Stamp t)
  end.

Definition to_datetime (col : list cell) : outcome (list cell) :=
  traverse to_datetime_cell col.

(** [pd.to_numeric(..., errors='coerce')]: what does not read as a number
    becomes NaN. *)
Definition to_numeric_cell (c : cell) : cell :=
  match c with
  | NA => NA
  | Text s =>
      match to_numeric_scalar s with
      | Some q => Number q
      | None => NA
      end
  | Number q => Number q
  | Stamp t => Number (inject_Z (epoch_ns t))
  end.

Definition to_numeric (col : list cell) : list cell := map to_numeric_cell col.

(** [str.replace('+', ' ')] *)
Fixpoint replace_plus (s : string) : string :=
  match s with
  | EmptyString => EmptyString
  | String c rest =>
      String (if Ascii.eqb c "+"%char then " "%char else c) (replace_plus rest)
  end.

(** The lambda applied to [field8]:
    [unquote_plus(x.replace('+', ' ')) if pd.notna(x) else '']. *)
Definition decode_cell (x : cell) : outcome cell :=
  if notna x then
    match x with
    | Text s => Returned (Text (unquote_plus (replace_plus s)))
    | _ => Raised AttributeError
    end
  else Returned (Text EmptyString).

Definition numeric_fields : list string :=
  ["field1"; "field2"; "field3"; "field4"; "field5"; "field6"; "field7"].

Definition coerce_field (df : DataFrame) (field : string) : DataFrame :=
  match Frame.find field (columns df) with
  | Some col => Frame.setitem field (to_numeric col) df
  | None => df
  end.

Definition process_data (data : option RawFeedBatch) : outcome (option DataFrame) :=
  match data with
  | None => Returned None
  | Some batch =>
      match feeds batch with
      | None => Returned None
      | Some [] => Returned None
      | Some ((_ :: _) as feeds) =>
          let df := Frame.of_records feeds in
          created_at <- Frame.getitem "created_at" df ;;
          stamps <- to_datetime created_at ;;
          let df := Frame.setitem "created_at" stamps df in
          let df := fold_left coerce_field numeric_fields df in
          match Frame.find "field8" (columns df) with
          | Some col =>
              decoded <- traverse decode_cell col ;;
              Returned (Some (Frame.setitem "field8" decoded df))
          | None => Returned (Some df)
          end
      end
  end.

End Normalizer.

(** ** Freshness

    The clock, the latest stamp of a column, and [check_missed_updates] read
    in exact hours: the hours and the thresholds as rationals, without the
    rounding of the script's doubles.  [Binary64] below is the check in
    doubles. *)

Module Freshness.

(** The wall clock: the instant on the epoch scale, in nanoseconds, and the
    offset of local time from it. *)
Record Clock : Type := { utc_now : Z; local_offset : Z }.

(** [datetime.now(tz)] for a stamp that carries a zone, [datetime.now()]
    otherwise, on the scale of [epoch_ns]. *)
Definition now (clock : Clock) (zone : option Z) : Z :=
  match zone with
  | Some _ => utc_now clock
  | None => utc_now clock + local_offset clock
  end.

(** A piece of an f-string: literal text, a number under [:.1f], or a number
    printed as it is. *)
Inductive fragment : Type :=
| Lit (s : string)
| Fixed1 (x : Status.number)
| Plain (x : Q).

Definition message := list fragment.

Definition later (a b : Timestamp) : Timestamp :=
  if (epoch_ns a <? epoch_ns b)%Z then b else a.

(** [series.max()] on the [created_at] column: NaT is skipped, and the
    maximum of a column without any stamp is NaT.  A cell that
    [pd.to_datetime] has not converted is no Timestamp and has no [tz]. *)
Fixpoint latest (col : list cell) : outcome (option Timestamp) :=
  match col with
  | [] => Returned None
  | c :: rest =>
      m <- latest rest ;;
      match c with
      | NA => Returned m
      | Stamp t => Returned (Some (match m with Some u => later t u | None => t end))
      | Text _ | Number _ => Raised AttributeError
      end
  end.

Definition ns_per_hour : Z := 3600 * 1000000000.

(** [(now - latest_update).total_seconds() / 3600]; NaN when the latest
    stamp is NaT. *)
Definition hours_since (clock : Clock) (latest_update : option Timestamp)
  : Status.number :=
  match latest_update with
  | None => None
  | Some t =>
      Some (inject_Z (now clock (tz t) - epoch_ns t) / inject_Z ns_per_hour)%Q
  end.

(** [x >= y] on floats: false when [x] is NaN. *)
Definition ge (x : Status.number) (y : Q) : bool :=
  match x with
  | None => false
  | Some q => Qle_bool y q
  end.

Definition minus (y : Q) (x : Status.number) : Status.number :=
  option_map (fun q => (y - q)%Q) x.

Definition check_missed_updates (clock : Clock) (df : option DataFrame)
  (expected_interval_hours : Q) : outcome (string * message) :=
  match df with
  | None => Returned ("danger", [Lit "No data available"])
  | Some df =>
      if Frame.empty df then Returned ("danger", [Lit "No data available"])
      else
        created_at <- Frame.getitem "created_at" df ;;
        latest_update <- latest created_at ;;
        let time_since_update := hours_since clock latest_update in
        let warning_threshold := (expected_interval_hours + (1 # 2))%Q in
        let missed_threshold := (expected_interval_hours * 2)%Q in
        if ge time_since_update missed_threshold then
          Returned ("danger",
            [Lit "🚨 MISSED UPDATE! Last update was "; Fixed1 time_since_update;
             Lit " hours ago (expected every "; Plain expected_interval_hours;
             Lit "h)"])
        else if ge time_since_update warning_threshold then
          Returned ("warning",
            [Lit "⚠️ Update Overdue: "; Fixed1 time_since_update;
             Lit " hours ago (next expected soon)"])
        else
          let next_expected := minus expected_interval_hours time_since_update in
          Returned ("success",
            [Lit "✅ Status Normal: Last update "; Fixed1 time_since_update;
             Lit "h ago (next in "; Fixed1 next_expected; Lit "h)"])
  end.

(** The guard [df is None or df.empty]. *)
Definition no_records (df : option DataFrame) : bool :=
  match df with
  | None => true
  | Some df => Frame.empty df
  end.

(** The three notification kinds under the names of the specification. *)
Inductive FreshnessStatus : Type := Normal | Overdue | Missed.

Definition status_of (kind : string) : option FreshnessStatus :=
  if String.eqb kind "danger" then Some Missed
  else if String.eqb kind "warning" then Some Overdue
  else if String.eqb kind "success" then Some Normal
  else None.

End Freshness.


(** ** Freshness in doubles

    [check_missed_updates] with the numbers of the script.  The hours since
    the latest update are a Python float, a binary64 double; the expected
    interval is the number the caller passes, the [int] 3 by default and
    from [main], or any other [int] or [float].  Arithmetic between an
    [int] and a [float] converts the [int], a comparison between them is
    exact, and each operation on doubles rounds to nearest.  The seconds of
    a Timedelta are pandas' to give. *)

Module Binary64.

Import PrimFloat SpecFloat FloatOps.
Import Freshness.

(** A Python number: an [int] or a [float]. *)
Inductive number : Type :=
| Whole (n : Z)
| Double (x : float).

(** The double nearest to an integer, ties to even, and an infinity past
    the largest double. *)
Definition of_Z (n : Z) : float :=
  SF2Prim (binary_normalize prec emax n 0 false).

(** The conversion of an [int] in mixed arithmetic: OverflowError when no
    double is near. *)
Definition to_float (n : Z) : outcome float :=
  let x := of_Z n in
  if is_infinity x then Raised OverflowError else Returned x.

Definition as_float (e : number) : outcome float :=
  match e with
  | Whole n => to_float n
  | Double x => Returned x
  end.

(** [e + 0.5]. *)
Definition add_half (e : number) : outcome float :=
  x <- as_float e ;; Returned (x + 0.5)%float.

(** [e * 2]: an [int] stays an [int]. *)
Definition twice (e : number) : number :=
  match e with
  | Whole n => Whole (n * 2)
  | Double x => Double (x * 2)%float
  end.

(** [e - h]. *)
Definition minus (e : number) (h : float) : outcome float :=
  x <- as_float e ;; Returned (x - h)%float.

(** A double against an [int], by their exact values; NaN compares with
    nothing. *)
Definition compare_Z (x : float) (n : Z) : option comparison :=
  match Prim2SF x with
  | S754_nan => None
  | S754_infinity s => Some (if s then Lt else Gt)
  | S754_zero _ => Some (0 ?= n)%Z
  | S754_finite s m e =>
      let v := if s then Z.neg m else Z.pos m in
      Some (if (0 <=? e)%Z then (v * 2 ^ e ?= n)%Z
            else (v ?= n * 2 ^ (- e))%Z)
  end.

(** [x >= y], [x == y] and [x < y] for a double [x]. *)
Definition ge (x : float) (y : number) : bool :=
  match y with
  | Double y => (y <=? x)%float
  | Whole n =>
      match compare_Z x n with
      | Some (Gt | Eq) => true
      | _ => false
      end
  end.

Definition equal (x : float) (y : number) : bool :=
  match y with
  | Double y => (x =? y)%float
  | Whole n =>
      match compare_Z x n with
      | Some Eq => true
      | _ => false
      end
  end.

Definition less (x : float) (y : number) : bool :=
  match y with
  | Double y => (x <? y)%float
  | Whole n =>
      match compare_Z x n with
      | Some Lt => true
      | _ => false
      end
  end.

(** A piece of an f-string: literal text, a double under [:.1f], or a
    number printed as it is. *)
Inductive fragment : Type :=
| Lit (s : string)
| Fixed1 (x : float)
| Plain (x : number).

Definition message := list fragment.

Section Hours.

(** [(now - latest_update).total_seconds()] from the nanoseconds between
    the two instants. *)
Variable total_seconds : Z -> float.

(** [(now - latest_update).total_seconds() / 3600]; NaN when the latest
    stamp is NaT. *)
Definition hours_since (clock : Clock) (latest_update : option Timestamp)
  : float :=
  match latest_update with
  | None => nan
  | Some t => (total_seconds (now clock (tz t) - epoch_ns t) / 3600)%float
  end.

Definition check_missed_updates (clock : Clock) (df : option DataFrame)
  (expected_interval_hours : number) : outcome (string * message) :=
  match df with
  | None => Returned ("danger", [Lit "No data available"])
  | Some df =>
      if Frame.empty df then Returned ("danger", [Lit "No data available"])
      else
        created_at <- Frame.getitem "created_at" df ;;
        latest_update <- latest created_at ;;
        let time_since_update := hours_since clock latest_update in
        warning_threshold <- add_half expected_interval_hours ;;
        let missed_threshold := twice expected_interval_hours in
        if ge time_since_update missed_threshold then
          Returned ("danger",
            [Lit "🚨 MISSED UPDATE! Last update was "; Fixed1 time_since_update;
             Lit " hours ago (expected every "; Plain expected_interval_hours;
             Lit "h)"])
        else if (warning_threshold <=? time_since_update)%float then
          Returned ("warning",
            [Lit "⚠️ Update Overdue: "; Fixed1 time_since_update;
             Lit " hours ago (next expected soon)"])
        else
          next_expected <- minus expected_interval_hours time_since_update ;;
          Returned ("success",
            [Lit "✅ Status Normal: Last update "; Fixed1 time_since_update;
             Lit "h ago (next in "; Fixed1 next_expected; Lit "h)"])
  end.

End Hours.

(** The status a run ends with, under the names of the specification. *)
Definition status (r : outcome (string * message)) : option FreshnessStatus :=
  match r with
  | Returned (kind, _) => status_of kind
  | Raised _ => None
  end.

(** [Timedelta.total_seconds] as pandas 2 computes it,
    [days * 24 * 3600 + seconds + microseconds / 1_000_000]: the whole
    seconds as an [int], the microseconds of the last second divided as
    doubles, and the sum in doubles. *)
Definition total_seconds (ns : Z) : float :=
  (of_Z (ns / 1000000000) + of_Z (ns mod 1000000000 / 1000) / 1000000)%float.

(** The decimal literals 0.5, 0.64 and 0.8 as Python reads them: the
    doubles nearest to the fractions. *)
Definition half : float := 0.5%float.
Definition point_64 : float := Eval cbv in (64 / 100)%float.
Definition point_8 : float := Eval cbv in (8 / 10)%float.

End Binary64.

(** ** Signal strength

    [extract_signal_strength] on text of seven-bit characters, where the
    classes [\s] and [\d] are those of ASCII.  Text beyond ASCII is for
    [Pattern] and [CodePoints] below, whose classes are Unicode's. *)

Module Signal.

(** The class [\s] of the pattern, on ASCII: tab, line feed, vertical tab,
    form feed, carriage return, the four separators 28..31 and the space. *)
Definition is_space (c : ascii) : bool :=
  let n := nat_of_ascii c in
  ((9 <=? n) && (n <=? 13) || (28 <=? n) && (n <=? 32))%nat.

(** The class [\d], on ASCII. *)
Definition is_digit (c : ascii) : bool :=
  let n := nat_of_ascii c in ((48 <=? n) && (n <=? 57))%nat.

(** A literal at the head of the text: what follows it, if it is there. *)
Fixpoint literal (lit s : string) : option string :=
  match lit with
  | EmptyString => Some s
  | String a lit' =>
      match s with
      | EmptyString => None
      | String b s' => if Ascii.eqb a b then literal lit' s' else None
      end
  end.

(** A greedy run of one class: the run and what follows it. *)
Fixpoint run (p : ascii -> bool) (s : string) : string * string :=
  match s with
  | EmptyString => (EmptyString, EmptyString)
  | String c rest =>
      if p c then let (r, k) := run p rest in (String c r, k)
      else (EmptyString, s)
  end.

(** The optional minus sign. *)
Definition minus_sign (s : string) : bool * string :=
  match s with
  | String c rest => if Ascii.eqb c "-"%char then (true, rest) else (false, s)
  | EmptyString => (false, s)
  end.

(** The value of a string of decimal digits, leading zeros allowed. *)
Fixpoint digits_value (acc : Z) (ds : string) : Z :=
  match ds with
  | EmptyString => acc
  | String c rest => digits_value (10 * acc + (Z.of_nat (nat_of_ascii c) - 48)) rest
  end.

(** [int(match.group(1))] from the sign and the digits of the group. *)
Definition group_value (negative : bool) (ds : string) : Z :=
  if negative then - digits_value 0 ds else digits_value 0 ds.

(** The pattern [Signal:\s*(-?\d+)\s*dBm] anchored at the head of the
    text.  No step can succeed after giving characters back, so the greedy
    runs are final. *)
Definition match_here (s : string) : option Z :=
  match literal "Signal:" s with
  | None => None
  | Some s1 =>
      let (_, s2) := run is_space s1 in
      let (negative, s3) := minus_sign s2 in
      let (ds, s4) := run is_digit s3 in
      match ds with
      | EmptyString => None
      | String _ _ =>
          let (_, s5) := run is_space s4 in
          match literal "dBm" s5 with
          | Some _ => Some (group_value negative ds)
          | None => None
          end
      end
  end.

(** [re.search]: the first position, from the left, where the pattern
    matches. *)
Fixpoint search (s : string) : option Z :=
  match match_here s with
  | Some n => Some n
  | None =>
      match s with
      | EmptyString => None
      | String _ rest => search rest
      end
  end.

(** [str(message)] of a cell that is no text shows a number or a date, and
    the word [Signal:] is in neither. *)
Definition extract_signal_strength (message : cell) : option Z :=
  if isna message then None
  else
    match message with
    | Text s => search s
    | _ => None
    end.

(** *** The pattern, read as a grammar *)

Fixpoint all (p : ascii -> bool) (s : string) : bool :=
  match s with
  | EmptyString => true
  | String c rest => p c && all p rest
  end.

(** The text of the optional sign. *)
Definition sign_text (negative : bool) : string :=
  if negative then "-" else EmptyString.

(** A text stops a run when it is empty or begins outside the class. *)
Definition stops (p : ascii -> bool) (s : string) : Prop :=
  match s with
  | EmptyString => True
  | String c _ => p c = false
  end.

(** [Matches s n]: the text [s] begins with the word [Signal:], any
    white space, an optional minus sign, one digit or more, any white space
    and the unit [dBm], and [n] is the signed number written there. *)
Definition Matches (s : string) (n : Z) : Prop :=
  exists (ws1 : string) (negative : bool) (ds ws2 tail : string),
    s = "Signal:" ++ ws1 ++ sign_text negative ++ ds ++ ws2 ++ "dBm" ++ tail
    /\ all is_space ws1 = true
    /\ all is_digit ds = true /\ ds <> EmptyString
    /\ all is_space ws2 = true
    /\ n = group_value negative ds.

(** [Found s n]: some suffix of [s] matches with value [n], and no suffix
    that starts further left matches at all. *)
Definition Found (s : string) (n : Z) : Prop :=
  exists before rest : string,
    s = before ++ rest /\ Matches rest n /\
    forall b r m, s = b ++ r -> (String.length b < String.length before)%nat ->
                  ~ Matches r m.

End Signal.

(** ** The pattern over any alphabet

    Python matches the pattern on text of Unicode characters: [\s] is any
    Unicode white space, [\d] any Unicode decimal digit, and [int] reads
    the digits of every script.  The matcher below is [Signal]'s with the
    alphabet left open: the characters, the two classes, the value of a
    digit, and how the text of a cell spells out in characters. *)

Module Pattern.

Section Pattern.

Variable char : Type.
Variable char_eqb : char -> char -> bool.

(** The character a letter of the pattern stands for. *)
Variable lit : ascii -> char.

(** The classes [\s] and [\d], and what [int] reads a digit as. *)
Variable is_space : char -> bool.
Variable is_digit : char -> bool.
Variable digit_value : char -> Z.

(** The characters of a text. *)
Variable chars : string -> list char.

Definition letters (w : string) : list char :=
  map lit (list_ascii_of_string w).

Fixpoint literal (w s : list char) : option (list char) :=
  match w with
  | [] => Some s
  | a :: w' =>
      match s with
      | [] => None
      | b :: s' => if char_eqb a b then literal w' s' else None
      end
  end.

Fixpoint run (p : char -> bool) (s : list char) : list char * list char :=
  match s with
  | [] => ([], [])
  | c :: rest =>
      if p c then let (r, k) := run p rest in (c :: r, k)
      else ([], s)
  end.

Definition minus_sign (s : list char) : bool * list char :=
  match s with
  | c :: rest => if char_eqb c (lit "-"%char) then (true, rest) else (false, s)
  | [] => (false, s)
  end.

Fixpoint digits_value (acc : Z) (ds : list char) : Z :=
  match ds with
  | [] => acc
  | c :: rest => digits_value (10 * acc + digit_value c) rest
  end.

Definition group_value (negative : bool) (ds : list char) : Z :=
  if negative then - digits_value 0 ds else digits_value 0 ds.

(** [Signal:\s*(-?\d+)\s*dBm] anchored at the head of the text. *)
Definition match_here (s : list char) : option Z :=
  match literal (letters "Signal:") s with
  | None => None
  | Some s1 =>
      let (_, s2) := run is_space s1 in
      let (negative, s3) := minus_sign s2 in
      let (ds, s4) := run is_digit s3 in
      match ds with
      | [] => None
      | _ :: _ =>
          let (_, s5) := run is_space s4 in
          match literal (letters "dBm") s5 with
          | Some _ => Some (group_value negative ds)
          | None => None
          end
      end
  end.

(** [re.search]: the leftmost position where the pattern matches. *)
Fixpoint search (s : list char) : option Z :=
  match match_here s with
  | Some n => Some n
  | None =>
      match s with
      | [] => None
      | _ :: rest => search rest
      end
  end.

(** [re.search] takes text only: a cell that is present and no text is a
    TypeError. *)
Definition extract_signal_strength (message : cell) : outcome (option Z) :=
  if isna message then Returned None
  else
    match message with
    | Text s => Returned (search (chars s))
    | _ => Raised TypeError
    end.

(** The pattern as a grammar: [Matches s n] when [s] begins with the word
    [Signal:], any white space, an optional minus sign, one digit or more,
    any white space and the word [dBm], and [n] is the signed number the
    digits spell. *)
Definition Matches (s : list char) (n : Z) : Prop :=
  exists (ws1 : list char) (negative : bool) (ds ws2 tail : list char),
    s = (letters "Signal:" ++ ws1 ++ (if negative then letters "-" else [])
         ++ ds ++ ws2 ++ letters "dBm" ++ tail)%list
    /\ forallb is_space ws1 = true
    /\ forallb is_digit ds = true /\ ds <> []
    /\ forallb is_space ws2 = true
    /\ n = group_value negative ds.

(** [Found s n]: some suffix of [s] matches with value [n], and no suffix
    that starts further left matches at all. *)
Definition Found (s : list char) (n : Z) : Prop :=
  exists before rest : list char,
    s = (before ++ rest)%list /\ Matches rest n /\
    forall b r m, s = (b ++ r)%list ->
                  (List.length b < List.length before)%nat ->
                  ~ Matches r m.

(** A text stops a run when it is empty or begins outside the class. *)
Definition stops (p : char -> bool) (s : list char) : Prop :=
  match s with
  | [] => True
  | c :: _ => p c = false
  end.

End Pattern.

(** The characters of ASCII, on which every alphabet has to agree with
    [Signal]'s classes. *)
Definition seven_bit (c : ascii) : bool := (nat_of_ascii c <? 128)%nat.

End Pattern.

(** ** Code points

    Python's alphabet: a text is a sequence of Unicode code points, [\s] is
    the white space of [str.isspace] and [\d] the decimal digits (category
    Nd), which [int] reads by their digit value.  The digits come in rows of
    ten from a zero; the table holds the zeros of Unicode 14.  A text
    written as bytes is read as UTF-8. *)

Module CodePoints.

Definition char := N.

Definition lit (a : ascii) : char := N_of_ascii a.

Definition between (lo hi n : N) : bool := ((lo <=? n) && (n <=? hi))%N.

Definition is_space (n : char) : bool :=
  between 9 13 n || between 28 32 n || (n =? 133)%N || (n =? 160)%N
  || (n =? 5760)%N || between 8192 8202 n || between 8232 8233 n
  || (n =? 8239)%N || (n =? 8287)%N || (n =? 12288)%N.

Definition zeros : list N :=
  [48; 1632; 1776; 1984; 2406; 2534; 2662; 2790; 2918; 3046; 3174; 3302;
   3430; 3558; 3664; 3792; 3872; 4160; 4240; 6112; 6160; 6470; 6608; 6784;
   6800; 6992; 7088; 7232; 7248; 42528; 43216; 43264; 43472; 43504; 43600;
   44016; 65296; 66720; 68912; 69734; 69872; 69942; 70096; 70384; 70736;
   70864; 71248; 71360; 71472; 71904; 72016; 72784; 73040; 73120; 92768;
   92864; 93008; 120782; 120792; 120802; 120812; 120822; 123200; 123632;
   125264; 130032]%N.

(** The zero of the row a digit stands in. *)
Definition zero_of (n : char) : option N :=
  find (fun z => between z (z + 9) n) zeros.

Definition is_digit (n : char) : bool :=
  match zero_of n with
  | Some _ => true
  | None => false
  end.

Definition digit_value (n : char) : Z :=
  match zero_of n with
  | Some z => Z.of_N n - Z.of_N z
  | None => 0
  end.

(** UTF-8: one code point from one to four bytes; a byte that begins no
    complete sequence stands for itself. *)
Fixpoint utf8 (bytes : list N) : list char :=
  match bytes with
  | [] => []
  | b :: rest =>
      if (b <? 192)%N then b :: utf8 rest
      else if (b <? 224)%N then
        match rest with
        | c :: rest1 => ((b mod 32) * 64 + c mod 64)%N :: utf8 rest1
        | [] => [b]
        end
      else if (b <? 240)%N then
        match rest with
        | c :: d :: rest2 =>
            ((b mod 16) * 4096 + (c mod 64) * 64 + d mod 64)%N :: utf8 rest2
        | _ => b :: utf8 rest
        end
      else
        match rest with
        | c :: d :: e :: rest3 =>
            ((b mod 8) * 262144 + (c mod 64) * 4096 + (d mod 64) * 64
             + e mod 64)%N :: utf8 rest3
        | _ => b :: utf8 rest
        end
  end.

Definition chars (s : string) : list char :=
  utf8 (map N_of_ascii (list_ascii_of_string s)).

Definition search : list char -> option Z :=
  Pattern.search char N.eqb lit is_space is_digit digit_value.

Definition extract_signal_strength : cell -> outcome (option Z) :=
  Pattern.extract_signal_strength char N.eqb lit is_space is_digit digit_value chars.

Definition Matches : list char -> Z -> Prop :=
  Pattern.Matches char lit is_space is_digit digit_value.

Definition Found : list char -> Z -> Prop :=
  Pattern.Found char lit is_space is_digit digit_value.

(** U+00A0, the no-break space, in UTF-8. *)
Definition no_break_space : string :=
  String (ascii_of_nat 194) (String (ascii_of_nat 160) EmptyString).

End CodePoints.

(** ** Readers

    The theorems on [process_data] hold for any readers.  Its runs on
    concrete batches use the ones below: the notation the feed API writes
    (stamps as [YYYY-MM-DDTHH:MM:SSZ], numbers as plain decimals), a part of
    what the library readers accept. *)

Module Readers.

Definition digit (c : ascii) : option Z :=
  if Signal.is_digit c then Some (Z.of_nat (nat_of_ascii c) - 48) else None.

Fixpoint number_of (acc : Z) (cs : list ascii) : option Z :=
  match cs with
  | [] => Some acc
  | c :: rest =>
      match digit c with
      | Some d => number_of (10 * acc + d) rest
      | None => None
      end
  end.

Definition leap (y : Z) : bool :=
  ((y mod 4 =? 0) && negb (y mod 100 =? 0) || (y mod 400 =? 0))%Z.

Definition days_in_month (y m : Z) : Z :=
  match m with
  | 2 => if leap y then 29 else 28
  | 4 | 6 | 9 | 11 => 30
  | _ => 31
  end.

(** Days from 1970-01-01 to a date of the proleptic Gregorian calendar. *)
Definition days_from_civil (y m d : Z) : Z :=
  let y' := if (m <=? 2)%Z then y - 1 else y in
  let era := y' / 400 in
  let yoe := y' - era * 400 in
  let mp := (m + 9) mod 12 in
  let doy := (153 * mp + 2) / 5 + d - 1 in
  let doe := yoe * 365 + yoe / 4 - yoe / 100 + doy in
  era * 146097 + doe - 719468.

Definition iso8601 (s : string) : option Timestamp :=
  match list_ascii_of_string s with
  | [y1; y2; y3; y4; "-"; m1; m2; "-"; d1; d2; "T"; h1; h2; ":"; i1; i2; ":"; s1; s2; "Z"]%char =>
      match number_of 0 [y1; y2; y3; y4], number_of 0 [m1; m2], number_of 0 [d1; d2],
            number_of 0 [h1; h2], number_of 0 [i1; i2], number_of 0 [s1; s2] with
      | Some y, Some m, Some d, Some h, Some i, Some sec =>
          if ((1 <=? y) && (1 <=? m) && (m <=? 12) && (1 <=? d) && (d <=? days_in_month y m)
              && (h <? 24) && (i <? 60) && (sec <? 60))%Z
          then Some {| epoch_ns :=
                         (((days_from_civil y m d * 24 + h) * 60 + i) * 60 + sec) * 1000000000;
                       tz := Some 0 |}
          else None
      | _, _, _, _, _, _ => None
      end
  | _ => None
  end.

(** A decimal: an optional sign, digits, and an optional fraction. *)
Definition decimal (s : string) : option Q :=
  let (negative, body) :=
    match s with
    | String c rest =>
        if Ascii.eqb c "-"%char then (true, rest)
        else if Ascii.eqb c "+"%char then (false, rest)
        else (false, s)
    | EmptyString => (false, s)
    end in
  let (whole, rest) := Signal.run Signal.is_digit body in
  let sign (q : Q) : Q := if negative then Qopp q else q in
  match whole, rest with
  | String _ _, EmptyString => Some (sign (inject_Z (Signal.digits_value 0 whole)))
  | String _ _, String dot frac =>
      if Ascii.eqb dot "."%char then
        match Signal.run Signal.is_digit frac with
        | (String _ _ as fd, EmptyString) =>
            Some (sign (Qred (Signal.digits_value 0 (whole ++ fd)
                              # Pos.pow 10 (Pos.of_nat (String.length fd)))))
        | _ => None
        end
      else None
  | _, _ => None
  end.

Definition hex (c : ascii) : option nat :=
  let n := nat_of_ascii c in
  if ((48 <=? n) && (n <=? 57))%nat then Some (n - 48)%nat
  else if ((65 <=? n) && (n <=? 70))%nat then Some (n - 55)%nat
  else if ((97 <=? n) && (n <=? 102))%nat then Some (n - 87)%nat
  else None.

(** [unquote_plus] on bytes: [+] is a space and [%XY] the byte it names; an
    escape that is not two hex digits stays as it is. *)
Fixpoint percent_decode (s : string) : string :=
  match s with
  | EmptyString => EmptyString
  | String c rest =>
      if Ascii.eqb c "+"%char then String " "%char (percent_decode rest)
      else
        match c, rest with
        | "%"%char, String a (String b rest') =>
            match hex a, hex b with
            | Some x, Some y => String (ascii_of_nat (16 * x + y)) (percent_decode rest')
            | _, _ => String c (percent_decode rest)
            end
        | _, _ => String c (percent_decode rest)
        end
  end.

Definition process_data := process_data iso8601 decimal percent_decode.

End Readers.

(** ** The specification's reading of the freshness check *)

Module Spec.

Import Freshness.

(** Missed at twice the expected interval or more, else Overdue at half an
    hour past the interval or more, else Normal. *)
Definition classify_freshness (hours_since expected_interval_hours : Q)
  : FreshnessStatus :=
  if Qle_bool (2 * expected_interval_hours) hours_since then Missed
  else if Qle_bool (expected_interval_hours + (1 # 2)) hours_since then Overdue
  else Normal.

(** The status a run of [check_missed_updates] ends with. *)
Definition status (r : outcome (string * message)) : option FreshnessStatus :=
  match r with
  | Returned (kind, _) => status_of kind
  | Raised _ => None
  end.

(** The hours between a stamp and the clock's reading in the stamp's zone. *)
Definition elapsed_hours (clock : Clock) (t : Timestamp) : Q :=
  inject_Z (now clock (tz t) - epoch_ns t) / inject_Z ns_per_hour.

End Spec.

(** ** Sample data *)

Module Sample.

Import Freshness.

(** One o'clock in the morning of 1970-01-01, local time on UTC. *)
Definition one_am : Clock := {| utc_now := ns_per_hour; local_offset := 0 |}.

(** Seven o'clock of the same morning. *)
Definition seven_am : Clock := {| utc_now := 7 * ns_per_hour; local_offset := 0 |}.

(** A clock that reads the given number of minutes past midnight. *)
Definition minutes_past (m : Z) : Clock :=
  {| utc_now := m * (ns_per_hour / 60); local_offset := 0 |}.

(** A clock that reads the given number of seconds past midnight. *)
Definition seconds_past (s : Z) : Clock :=
  {| utc_now := s * 1000000000; local_offset := 0 |}.

Definition midnight : Timestamp := {| epoch_ns := 0; tz := Some 0 |}.

(** A frame of one reading taken at midnight. *)
Definition one_reading : DataFrame :=
  {| nrows := 1;
     columns := [("created_at", [Stamp midnight]); ("field1", [Number (47 # 2)])] |}.

Definition entry (created_at field1 : string) : Json.object :=
  [("created_at", Json.Str created_at); ("entry_id", Json.Num 1);
   ("field1", Json.Str field1); ("field4", Json.Str "4")].

(** Five entries; the stamps of the second and the fourth do not read. *)
Definition five_entries : list Json.object :=
  [entry "2024-01-15T00:00:00Z" "20.0";
   entry "not-a-date" "21.0";
   entry "2024-01-15T06:00:00Z" "22.0";
   entry "yesterday-ish" "23.0";
   entry "2024-01-15T12:00:00Z" "24.0"].

(** Three entries whose [field1] is a decimal, a word, and missing. *)
Definition three_entries : list Json.object :=
  [entry "2024-01-15T00:00:00Z" "23.5";
   entry "2024-01-15T03:00:00Z" "abc";
   [("created_at", Json.Str "2024-01-15T06:00:00Z"); ("field4", Json.Str "4")]].

End Sample.

(** ** The dashboard

    The part of [main] that computes: the choice of the read key, one
    refresh of the session state, the guard of the main content, the
    statistics cards, the derived columns and the rows of the table.  A
    frame reaches [main] through [process_data] only, so its columns
    [field1] to [field7] hold floats and NaN. *)

Module Dashboard.

Import Freshness.

(** [st.session_state]: the last frame and the time it was loaded. *)
Record SessionState : Type := {
  last_data : option DataFrame;
  last_update : option Z
}.

(** The URL [fetch_thingspeak_data] requests; the key is appended when it is
    not empty. *)
Definition feeds_url (channel_id api_key : string) (results : Z) : string :=
  let url := "https://api.thingspeak.com/channels/" ++ channel_id
             ++ "/feeds.json?results=" ++ Status.str results in
  match api_key with
  | EmptyString => url
  | String _ _ => url ++ "&api_key=" ++ api_key
  end.

(** [fetch_thingspeak_data]: the decoded body, or [None] when the request
    raises a [RequestException].  [http_get] is the network.  As in
    [process_data], [None] also stands for a body that is an empty object,
    which [if data:] and [not data] treat alike. *)
Definition fetch_thingspeak_data (http_get : string -> option RawFeedBatch)
  (channel_id api_key : string) (results : Z) : option RawFeedBatch :=
  http_get (feeds_url channel_id api_key results).

(** Whether the preset's key is anything but the empty text. *)
Definition using_secret_key (preset_key : string) : bool :=
  negb (String.eqb preset_key EmptyString).

(** The value the key input starts with. *)
Definition key_input_default (preset_key : string) : string :=
  if using_secret_key preset_key then "hidden" else EmptyString.

(** The key [main] fetches with: what the user typed, unless it is empty or
    the placeholder, and the preset's key otherwise. *)
Definition api_key (preset_key api_key_input : string) : string :=
  if negb (String.eqb api_key_input EmptyString)
     && negb (String.eqb api_key_input "hidden")
  then api_key_input
  else preset_key.

(** What the sidebar reports after a refresh. *)
Inductive notice : Type :=
| Loaded (entries : nat)
| FailedToFetch
| EnterChannel.

(** [len(df) if df is not None else 0] *)
Definition loaded (df : option DataFrame) : nat :=
  match df with
  | Some df => nrows df
  | None => 0%nat
  end.

(** The refresh branch of [main] from the test of the channel id to the
    report of the load: the fetch, the write of the session state and the
    notice.  [normalize] is [process_data] with its readers; when it raises,
    the exception leaves [main] and the session state is not written.  What
    follows the report under auto-refresh is in [main_pass]. *)
Definition refresh
  (normalize : option RawFeedBatch -> outcome (option DataFrame))
  (http_get : string -> option RawFeedBatch)
  (channel_id key : string) (results : Z) (time : Z) (st : SessionState)
  : outcome (SessionState * notice) :=
  match channel_id with
  | EmptyString => Returned (st, EnterChannel)
  | String _ _ =>
      match fetch_thingspeak_data http_get channel_id key results with
      | Some data =>
          df <- normalize (Some data) ;;
          Returned ({| last_data := df; last_update := Some time |},
                    Loaded (loaded df))
      | None => Returned (st, FailedToFetch)
      end
  end.

(** The guard of the main content:
    [last_data is not None and not last_data.empty]. *)
Definition shows_data (st : SessionState) : option DataFrame :=
  match last_data st with
  | Some df => if negb (Frame.empty df) then Some df else None
  | None => None
  end.

(** The notification [main] displays: [check_missed_updates(df)] with the
    default interval, when the main content is shown at all. *)
Definition notification (clock : Clock) (st : SessionState)
  : option (outcome (string * message)) :=
  match shows_data st with
  | Some df => Some (check_missed_updates clock (Some df) 3)
  | None => None
  end.

(** The same notification with the numbers of the script: the default
    interval is the [int] 3 and the hours are doubles. *)
Definition notification_in_doubles (total_seconds : Z -> PrimFloat.float)
  (clock : Clock) (st : SessionState)
  : option (outcome (string * Binary64.message)) :=
  match shows_data st with
  | Some df =>
      Some (Binary64.check_missed_updates total_seconds clock (Some df)
              (Binary64.Whole 3))
  | None => None
  end.

(** Where a run of [main] ends: halted by [st.experimental_rerun()], on the
    main content of a frame, or on the text that asks for a channel. *)
Inductive page : Type :=
| Rerun
| MainContent (df : DataFrame)
| Info.

Definition render (st : SessionState) : page :=
  match shows_data st with
  | Some df => MainContent df
  | None => Info
  end.

(** One run of [main]: the refresh branch when the button is pressed or
    auto-refresh is on, then the page.  After a load under auto-refresh the
    run sleeps and calls [st.experimental_rerun()], which halts it before
    the main content. *)
Definition main_pass
  (normalize : option RawFeedBatch -> outcome (option DataFrame))
  (http_get : string -> option RawFeedBatch)
  (button auto_refresh : bool)
  (channel_id key : string) (results : Z) (time : Z) (st : SessionState)
  : outcome (SessionState * option notice * page) :=
  if (button || auto_refresh)%bool then
    r <- refresh normalize http_get channel_id key results time st ;;
    match r with
    | (st', Loaded entries) =>
        if auto_refresh then Returned (st', Some (Loaded entries), Rerun)
        else Returned (st', Some (Loaded entries), render st')
    | (st', report) => Returned (st', Some report, render st')
    end
  else Returned (st, None, render st).

(** The float in a cell of a numeric column. *)
Definition value (c : cell) : Status.number :=
  match c with
  | Number q => Some q
  | _ => None
  end.

(** [series.dropna()] on a numeric column: the floats that are there. *)
Definition dropna (col : list cell) : list Q :=
  flat_map (fun c => match value c with Some q => [q] | None => [] end) col.

(** [series == k], cell by cell. *)
Definition equals (k : Q) (c : cell) : bool :=
  match c with
  | Number q => Qeq_bool q k
  | _ => false
  end.

(** [len(df[(df['field4'] == 1) | (df['field4'] == 2)])] *)
Definition retry_count (field4 : list cell) : nat :=
  List.length (filter (fun c => equals 1 c || equals 2 c) field4).

(** [df.iloc[-1][k]]: the cell of the last row. *)
Definition last_cell (col : list cell) : cell := last col NA.

(** [x if pd.notna(x) else 0] *)
Definition or_zero (c : cell) : Q :=
  match value c with
  | Some q => q
  | None => 0%Q
  end.

Definition sum (xs : list Q) : Q := fold_right Qplus 0%Q xs.

(** [series.mean()], in exact arithmetic.  The script sums and divides in
    doubles, so its mean can differ from this one in the last place. *)
Definition mean (xs : list Q) : Q :=
  (sum xs / inject_Z (Z.of_nat (List.length xs)))%Q.

(** [moisture_values.mean() if len(moisture_values) > 0 else 0] *)
Definition average (xs : list Q) : Q :=
  match xs with
  | [] => 0%Q
  | _ :: _ => mean xs
  end.

Record Statistics : Type := {
  current_moisture : Q;
  current_battery : Q;
  battery_color : string;
  avg_moisture : Q;
  retries : nat;
  total_readings : nat
}.

(** The values of the five metric cards.  A column the frame lacks is a
    [KeyError]. *)
Definition statistics (df : DataFrame) : outcome Statistics :=
  field1 <- Frame.getitem "field1" df ;;
  field3 <- Frame.getitem "field3" df ;;
  field4 <- Frame.getitem "field4" df ;;
  let battery := or_zero (last_cell field3) in
  Returned {|
    current_moisture := or_zero (last_cell field1);
    current_battery := battery;
    battery_color := if Qle_bool (33 # 10) battery then "normal" else "inverse";
    avg_moisture := average (dropna field1);
    retries := retry_count field4;
    total_readings := nrows df
  |}.

(** The columns [attempts] and [status_color] derived from [field4]. *)
Definition attempts_column (field4 : list cell) : list Z :=
  map (fun c => Status.attempts (value c)) field4.

Definition status_color_column (field4 : list cell) : list string :=
  map (fun c => Status.status_color (value c)) field4.

(** The column [signal_strength] derived from [field8]:
    [df['field8'].apply(extract_signal_strength)]. *)
Definition signal_column (field8 : list cell) : outcome (list (option Z)) :=
  traverse CodePoints.extract_signal_strength field8.

(** The [Status] column of the table. *)
Definition status_text_column (field4 : list cell) : list string :=
  map (fun c => Status.get_status_text (value c)) field4.

(** [frame.tail(n)]: the last [n] rows. *)
Definition tail {A : Type} (n : nat) (rows : list A) : list A :=
  skipn (List.length rows - n) rows.

(** [display_df[...].tail(20).iloc[::-1]]: the rows of the table. *)
Definition table_rows {A : Type} (rows : list A) : list A := rev (tail 20 rows).

End Dashboard.

(** ** The order of the statuses *)

Module Severity.

Import Freshness.

(** Normal, Overdue and Missed in the order of their urgency. *)
Definition rank (s : FreshnessStatus) : nat :=
  match s with
  | Normal => 0%nat
  | Overdue => 1%nat
  | Missed => 2%nat
  end.

End Severity.

(** ** More sample data *)

Module Logs.

(** An entry with a reading in every field the dashboard charts. *)
Definition entry (created_at field4 field8 : Json.value) : Json.object :=
  [("created_at", created_at); ("entry_id", Json.Num 7);
   ("field1", Json.Str "41.5"); ("field2", Json.Str "2210");
   ("field3", Json.Str "3.91"); ("field4", field4); ("field8", field8)].

(** Two readings three hours apart; the second has no log line. *)
Definition logged : list Json.object :=
  [entry (Json.Str "2024-01-15T00:00:00Z") (Json.Str "4")
     (Json.Str "WiFi+connected.%20Signal%3A+-67+dBm");
   entry (Json.Str "2024-01-15T03:00:00Z") (Json.Str "1") Json.Null].

(** A reading whose log line is a number. *)
Definition numeric_log : list Json.object :=
  [entry (Json.Str "2024-01-15T00:00:00Z") (Json.Str "4") (Json.Num 7)].

(** Three readings; the stamp of the second is the empty text. *)
Definition blank_stamp : list Json.object :=
  [Sample.entry "2024-01-15T00:00:00Z" "20.0";
   Sample.entry EmptyString "21.0";
   Sample.entry "2024-01-15T06:00:00Z" "22.0"].

(** A reading without a stamp. *)
Definition unstamped : list Json.object := [[("field1", Json.Str "41.5")]].

(** A reading without the battery field. *)
Definition no_battery : list Json.object :=
  [[("created_at", Json.Str "2024-01-15T00:00:00Z"); ("field1", Json.Str "41.5");
    ("field4", Json.Str "4")]].

(** The frame of [logged]. *)
Definition frame : DataFrame :=
  match Readers.process_data (Some {| feeds := Some logged |}) with
  | Returned (Some df) => df
  | _ => {| nrows := 0; columns := [] |}
  end.

(** Half past two in the morning of 2024-01-15, UTC. *)
Definition half_past_two : Freshness.Clock :=
  {| Freshness.utc_now := 1705285800 * 1000000000; Freshness.local_offset := 0 |}.

(** The same instant on a machine two hours east of UTC. *)
Definition half_past_two_east : Freshness.Clock :=
  {| Freshness.utc_now := 1705285800 * 1000000000;
     Freshness.local_offset := 2 * Freshness.ns_per_hour |}.

(** Seven in the morning of the same day, UTC. *)
Definition seven : Freshness.Clock :=
  {| Freshness.utc_now := 1705302000 * 1000000000; Freshness.local_offset := 0 |}.

(** A network that answers every request with the feed [logged], one that
    answers with an empty feed, and one that is down. *)
Definition online (url : string) : option RawFeedBatch :=
  Some {| feeds := Some logged |}.

Definition drained (url : string) : option RawFeedBatch :=
  Some {| feeds := Some [] |}.

Definition offline (url : string) : option RawFeedBatch := None.

End Logs.

(** * Properties *)

(** ** Status codes *)

Section StatusFacts.

Import Status.

Local Open Scope Z_scope.

Lemma int_inject_Z (z : Z) : int (inject_Z z) = z.
Proof. unfold int, inject_Z; simpl. apply Z.quot_1_r. Qed.

Lemma in_1_2_inject_Z (z : Z) :
  in_1_2 (Some (inject_Z z)) = (z =? 1) || (z =? 2).
Proof.
  unfold in_1_2, Qeq_bool, inject_Z; simpl.
  rewrite !Z.mul_1_r. reflexivity.
Qed.

Lemma status_map_other (z : Z) :
  z <> 1 -> z <> 2 -> z <> 3 -> z <> 4 -> status_map z = None.
Proof.
  intros H1 H2 H3 H4.
  destruct z as [|p|p]; try reflexivity.
  destruct p as [[p|p|]|[p|p|]|]; try reflexivity; try congruence.
  destruct p; try reflexivity; congruence.
Qed.

(** C9.  Whatever the status code of a record is, a number of any value or
    absent, the attempt count derived from it is 1 or 2. *)
Theorem attempts_one_or_two :
  forall x : number, attempts x = 1 \/ attempts x = 2.
Proof.
  intros x. unfold attempts.
  destruct (in_1_2 x); [right; reflexivity|].
  destruct (notna x); left; reflexivity.
Qed.

(** C7 (amended).  The derivation is a fixed table.  The attempt count is
    two exactly when the status code equals 1 or 2, and one otherwise.  The
    label of a present code is the table's entry for its integer part, the
    retry labels for 1 and 2, the low-battery label for 3 and a label that
    contains "Normal" for 4, and "Code: " followed by the integer part
    otherwise: "Code: 7" for 7, "Code: 0" for 0, "Code: -3" for -3.  On
    integer codes this is the table of the specification; a code with a
    fraction takes the label of its integer part.  An absent code counts
    one attempt under the label "Unknown". *)
Theorem derive_attempts_table :
  (forall q : Q,
      attempts (Some q) = (if (Qeq_bool q 1 || Qeq_bool q 2)%bool then 2 else 1)
      /\ get_status_text (Some q) =
           (if int q =? 1 then "🔄 Upload Retry Success"
            else if int q =? 2 then "📶 WiFi Retry Success"
            else if int q =? 3 then "🔋 Low Battery Warning"
            else if int q =? 4 then "✅ Normal Reading"
            else "Code: " ++ str (int q)))
  /\ (forall z : Z,
        int (inject_Z z) = z
        /\ attempts (Some (inject_Z z)) = (if (z =? 1) || (z =? 2) then 2 else 1))
  /\ get_status_text (Some 7%Q) = "Code: 7"%string
  /\ get_status_text (Some 0%Q) = "Code: 0"%string
  /\ get_status_text (Some (-3)%Q) = "Code: -3"%string
  /\ get_status_text (Some 120%Q) = "Code: 120"%string
  /\ get_status_text (Some (15 # 2)%Q) = "Code: 7"%string
  /\ contains "Retry" (get_status_text (Some 1%Q)) = true
  /\ contains "Retry" (get_status_text (Some 2%Q)) = true
  /\ contains "Normal" (get_status_text (Some 4%Q)) = true
  /\ attempts None = 1
  /\ get_status_text None = "Unknown"%string.
Proof.
  split; [|split; [|repeat split; reflexivity]].
  - intros q. split; [reflexivity|].
    unfold get_status_text.
    destruct (Z.eqb_spec (int q) 1) as [->|H1]; [reflexivity|].
    destruct (Z.eqb_spec (int q) 2) as [->|H2]; [reflexivity|].
    destruct (Z.eqb_spec (int q) 3) as [->|H3]; [reflexivity|].
    destruct (Z.eqb_spec (int q) 4) as [->|H4]; [reflexivity|].
    rewrite status_map_other by assumption. reflexivity.
  - intros z. split; [apply int_inject_Z|].
    unfold attempts. rewrite in_1_2_inject_Z.
    destruct ((z =? 1) || (z =? 2)); reflexivity.
Qed.

(** C7 as stated fails on a code with a fraction: 1.5 is present and is
    neither 1 nor 2, it counts one attempt, and its label is the retry label
    of 1, not an entry for 3 or 4 and not a "Code: ..." text. *)
Lemma fractional_code_takes_retry_label :
  in_1_2 (Some (3 # 2)%Q) = false
  /\ attempts (Some (3 # 2)%Q) = 1
  /\ get_status_text (Some (3 # 2)%Q) = "🔄 Upload Retry Success"%string
  /\ prefix "Code: " (get_status_text (Some (3 # 2)%Q)) = false.
Proof. repeat split. Qed.

Lemma int_floor_ceiling (q : Q) :
  int q = if Qle_bool 0 q then Qfloor q else Qceiling q.
Proof.
  destruct q as [n d]. unfold int, Qle_bool, Qceiling, Qfloor, Qopp; simpl.
  rewrite Z.mul_1_r.
  destruct (Z.leb_spec 0 n) as [Hn|Hn].
  - apply Z.quot_div_nonneg; lia.
  - rewrite <- (Z.opp_involutive n) at 1.
    rewrite Z.quot_opp_l by lia.
    rewrite Z.quot_div_nonneg by lia. reflexivity.
Qed.

(** C10.  The label of a present status code is the label of its integer
    part: [int] cuts the fraction off toward zero (the floor of a value that
    is not negative, the ceiling of a negative one), so 4.9 is labelled as 4
    and 1.5 as 1. *)
Theorem label_by_truncation :
  (forall q : Q,
      get_status_text (Some q) = get_status_text (Some (inject_Z (int q)))
      /\ int q = (if Qle_bool 0 q then Qfloor q else Qceiling q))
  /\ get_status_text (Some (49 # 10)%Q) = get_status_text (Some 4%Q)
  /\ get_status_text (Some (3 # 2)%Q) = get_status_text (Some 1%Q)
  /\ get_status_text (Some (- (3 # 2))%Q) = "Code: -1"%string.
Proof.
  split; [|repeat split; reflexivity].
  intros q. split.
  - unfold get_status_text. rewrite int_inject_Z. reflexivity.
  - apply int_floor_ceiling.
Qed.

End StatusFacts.

(** ** Freshness *)

Section FreshnessFacts.

Import Freshness Spec.

Local Open Scope Q_scope.

Lemma Qle_bool_twice (e h : Q) : Qle_bool (e * 2) h = Qle_bool (2 * e) h.
Proof.
  apply Bool.eq_true_iff_eq. rewrite !Qle_bool_iff.
  rewrite (Qmult_comm e 2). reflexivity.
Qed.

Lemma status_of_run (clock : Clock) (df : DataFrame) (e : Q)
  (created_at : list cell) (t : Timestamp) :
  Frame.empty df = false ->
  Frame.getitem "created_at" df = Returned created_at ->
  latest created_at = Returned (Some t) ->
  status (check_missed_updates clock (Some df) e)
  = Some (classify_freshness (elapsed_hours clock t) e).
Proof.
  intros Hne Hcol Hmax.
  unfold check_missed_updates. rewrite Hne, Hcol. simpl bind.
  rewrite Hmax. simpl bind.
  unfold classify_freshness, hours_since, ge. fold (elapsed_hours clock t).
  rewrite Qle_bool_twice.
  destruct (Qle_bool (2 * e) (elapsed_hours clock t)); [reflexivity|].
  destruct (Qle_bool (e + (1 # 2)) (elapsed_hours clock t)); reflexivity.
Qed.

(** C2 (amended).  Without records, a frame that is absent or empty, the
    check ends Missed (kind "danger") with the message "No data available",
    whatever the expected interval. *)
Theorem no_data_is_missed :
  forall (clock : Clock) (df : option DataFrame) (e : Q),
    no_records df = true ->
    check_missed_updates clock df e = Returned ("danger"%string, [Lit "No data available"])
    /\ status (check_missed_updates clock df e) = Some Missed.
Proof.
  intros clock df e Hdf.
  assert (check_missed_updates clock df e
          = Returned ("danger"%string, [Lit "No data available"])) as Hrun.
  { destruct df as [df|]; simpl in *; [rewrite Hdf|]; reflexivity. }
  rewrite Hrun. split; reflexivity.
Qed.

Lemma no_data_is_missed_witness :
  no_records None = true
  /\ check_missed_updates Sample.one_am None 3
     = Returned ("danger"%string, [Lit "No data available"]).
Proof.
  split; [reflexivity|].
  exact (proj1 (no_data_is_missed Sample.one_am None 3 eq_refl)).
Defined.

(** C2 as stated names the message in lower case; the text the check
    returns begins with a capital letter. *)
Lemma no_data_message_is_capitalised :
  check_missed_updates Sample.one_am None 3
  <> Returned ("danger"%string, [Lit "no data available"]).
Proof. discriminate. Qed.

End FreshnessFacts.

(** ** Freshness in doubles *)

Section Binary64Facts.

Import PrimFloat SpecFloat FloatOps FloatAxioms.
Import Freshness Binary64.

Lemma SFcompare_swap (x y : spec_float) :
  SFcompare y x = option_map CompOpp (SFcompare x y).
Proof.
  destruct x as [s|s| |s m e], y as [s'|s'| |s' m' e']; simpl;
    try destruct s; try destruct s'; try reflexivity.
  - rewrite (Z.compare_antisym e' e).
    destruct (e' ?= e)%Z; simpl; try reflexivity.
    rewrite (Pos.compare_cont_antisym m m' Eq). reflexivity.
  - rewrite (Z.compare_antisym e' e).
    destruct (e' ?= e)%Z; simpl; try reflexivity.
    rewrite (Pos.compare_cont_antisym m m' Eq). simpl.
    destruct (Pos.compare_cont Eq m' m); reflexivity.
Qed.

(** Doubles that compare equal are the same double, or are both a zero. *)
Lemma SFcompare_Eq (x y : spec_float) :
  SFcompare x y = Some Eq ->
  x = y \/ exists s s', x = S754_zero s /\ y = S754_zero s'.
Proof.
  destruct x as [s|s| |s m e], y as [s'|s'| |s' m' e']; simpl;
    try discriminate; try (destruct s; discriminate);
    try (destruct s'; discriminate).
  - intros _. right. eauto.
  - destruct s, s'; try discriminate; intros _; left; reflexivity.
  - intros H. left.
    assert (e = e' /\ m = m') as [-> ->]; [|destruct s, s'; try discriminate; reflexivity].
    destruct s, s'; try discriminate;
      destruct (e ?= e')%Z eqn:He; try discriminate;
      apply Z.compare_eq in He; split; try exact He;
      apply Pos.compare_eq; unfold Pos.compare;
      destruct (Pos.compare_cont Eq m m'); try discriminate; reflexivity.
Qed.

Lemma eqb_leb (h w : float) : (h =? w)%float = true -> (w <=? h)%float = true.
Proof.
  rewrite eqb_spec, leb_spec. unfold SFeqb, SFleb.
  rewrite (SFcompare_swap (Prim2SF h) (Prim2SF w)).
  destruct (SFcompare (Prim2SF h) (Prim2SF w)) as [[]|]; simpl; congruence.
Qed.

Lemma equal_ge (h : float) (m : number) : equal h m = true -> ge h m = true.
Proof.
  destruct m as [n|y]; simpl.
  - destruct (compare_Z h n) as [[]|]; congruence.
  - apply eqb_leb.
Qed.

Lemma eqb_ge (h w : float) (m : number) :
  (h =? w)%float = true -> ge h m = ge w m.
Proof.
  rewrite eqb_spec. unfold SFeqb.
  destruct (SFcompare (Prim2SF h) (Prim2SF w)) as [[]|] eqn:Hc; try discriminate.
  intros _. apply SFcompare_Eq in Hc.
  destruct m as [n|y]; simpl.
  - unfold compare_Z.
    destruct Hc as [->|[s [s' [-> ->]]]]; reflexivity.
  - rewrite !leb_spec. unfold SFleb.
    destruct Hc as [->|[s [s' [-> ->]]]]; [reflexivity|].
    destruct (Prim2SF y); reflexivity.
Qed.

Lemma less_not_ge (w : float) (m : number) : less w m = true -> ge w m = false.
Proof.
  destruct m as [n|y]; simpl.
  - destruct (compare_Z w n) as [[]|]; congruence.
  - rewrite ltb_spec, leb_spec. unfold SFltb, SFleb.
    rewrite (SFcompare_swap (Prim2SF w) (Prim2SF y)).
    destruct (SFcompare (Prim2SF w) (Prim2SF y)) as [[]|]; simpl; congruence.
Qed.

(** NaN is at or past no threshold. *)
Lemma nan_ge (m : number) : ge nan m = false.
Proof.
  destruct m as [n|y]; simpl; [reflexivity|].
  rewrite leb_spec. unfold SFleb.
  change (Prim2SF nan) with S754_nan.
  destruct (Prim2SF y); reflexivity.
Qed.

Section Hours.

Variable total_seconds : Z -> float.

Local Notation "'hours'" := (hours_since total_seconds) (only parsing).
Local Notation "'check'" := (check_missed_updates total_seconds) (only parsing).

Lemma status_of_run_in_doubles (clock : Clock) (df : DataFrame) (e : number)
  (created_at : list cell) (latest_update : option Timestamp) (w : float) :
  Frame.empty df = false ->
  Frame.getitem "created_at" df = Returned created_at ->
  latest created_at = Returned latest_update ->
  add_half e = Returned w ->
  status (check clock (Some df) e)
  = Some (if ge (hours clock latest_update) (twice e) then Missed
          else if (w <=? hours clock latest_update)%float then Overdue
          else Normal).
Proof.
  intros Hne Hcol Hmax Hw.
  unfold check_missed_updates. rewrite Hne, Hcol. simpl bind.
  rewrite Hmax. simpl bind. rewrite Hw. simpl bind.
  destruct (ge (hours clock latest_update) (twice e)); [reflexivity|].
  destruct (w <=? hours clock latest_update)%float; [reflexivity|].
  unfold add_half in Hw. unfold minus.
  destruct (as_float e) as [x|err]; [|discriminate]. reflexivity.
Qed.

(** C1 (amended).  On a frame that is not empty, with [h] the hours from
    the latest stamp of its [created_at] column to now, [w] the double
    [e + 0.5] and [m] the number [e * 2], all as the script computes them,
    the check returns, and it ends Missed when [h >= m], else Overdue when
    [h >= w], else Normal.  So [h == m] is Missed, and [h == w] is Overdue
    when [w < m] and Missed when [w >= m], as it is for an interval of
    half an hour. *)
Theorem check_missed_updates_cascade_in_doubles :
  forall (clock : Clock) (df : DataFrame) (e : number)
         (created_at : list cell) (latest_update : option Timestamp)
         (w : float),
    Frame.empty df = false ->
    Frame.getitem "created_at" df = Returned created_at ->
    latest created_at = Returned latest_update ->
    add_half e = Returned w ->
    let h := hours clock latest_update in
    let m := twice e in
    let result := status (check clock (Some df) e) in
    result = Some (if ge h m then Missed
                   else if (w <=? h)%float then Overdue else Normal)
    /\ (equal h m = true -> result = Some Missed)
    /\ ((h =? w)%float = true -> less w m = true -> result = Some Overdue)
    /\ ((h =? w)%float = true -> ge w m = true -> result = Some Missed).
Proof.
  intros clock df e created_at latest_update w Hne Hcol Hmax Hw h m result.
  assert (result = Some (if ge h m then Missed
                         else if (w <=? h)%float then Overdue else Normal))
    as Hrun
    by (apply (status_of_run_in_doubles clock df e created_at latest_update w);
        assumption).
  rewrite Hrun. split; [reflexivity|]. split; [|split].
  - intros Hh. rewrite (equal_ge h m Hh). reflexivity.
  - intros Hh Hlt.
    rewrite (eqb_ge h w m Hh), (less_not_ge w m Hlt), (eqb_leb h w Hh).
    reflexivity.
  - intros Hh Hge. rewrite (eqb_ge h w m Hh), Hge. reflexivity.
Qed.

(** Without records the check ends Missed with "No data available", in
    doubles as in exact hours. *)
Lemma no_records_in_doubles (clock : Clock) (df : option DataFrame) (e : number) :
  no_records df = true ->
  check clock df e = Returned ("danger"%string, [Lit "No data available"]).
Proof.
  intros Hdf. destruct df as [df|]; simpl in *; [rewrite Hdf|]; reflexivity.
Qed.

(** X24.  A column without any stamp: the hours are NaN, no threshold is
    reached, and the check ends Normal. *)
Theorem stampless_column_is_normal (clock : Clock) (df : DataFrame) (e : number)
  (created_at : list cell) (w : float) :
  Frame.empty df = false ->
  Frame.getitem "created_at" df = Returned created_at ->
  latest created_at = Returned None ->
  add_half e = Returned w ->
  status (check clock (Some df) e) = Some Normal.
Proof.
  intros Hne Hcol Hmax Hw.
  rewrite (status_of_run_in_doubles clock df e created_at None w Hne Hcol Hmax Hw).
  simpl hours_since. rewrite nan_ge.
  rewrite leb_spec. unfold SFleb. change (Prim2SF nan) with S754_nan.
  destruct (Prim2SF w); reflexivity.
Qed.

End Hours.

(** A frame of one row whose stamp is NaT. *)
Lemma stampless_column_is_normal_witness :
  status (check_missed_updates total_seconds Sample.seven_am
            (Some {| nrows := 1; columns := [("created_at"%string, [NA])] |})
            (Whole 3))
  = Some Normal.
Proof.
  apply (stampless_column_is_normal total_seconds Sample.seven_am
           {| nrows := 1; columns := [("created_at"%string, [NA])] |}
           (Whole 3) [NA] 3.5%float);
    reflexivity.
Defined.

(** At seven in the morning a reading taken at midnight is seven hours old:
    with the default interval of three hours it is Missed. *)
Lemma check_missed_updates_cascade_in_doubles_witness :
  Frame.empty Sample.one_reading = false
  /\ add_half (Whole 3) = Returned 3.5%float
  /\ hours_since total_seconds Sample.seven_am (Some Sample.midnight) = 7%float
  /\ status (check_missed_updates total_seconds Sample.seven_am
               (Some Sample.one_reading) (Whole 3))
     = Some Missed.
Proof.
  split; [reflexivity|]. split; [reflexivity|]. split; [reflexivity|].
  exact (proj1 (check_missed_updates_cascade_in_doubles total_seconds
                  Sample.seven_am Sample.one_reading (Whole 3)
                  [Stamp Sample.midnight] (Some Sample.midnight) 3.5%float
                  eq_refl eq_refl eq_refl eq_refl)).
Defined.

(** C1 as stated fails where the two boundaries meet.  With an interval of
    half an hour a reading exactly one hour old sits on the Overdue boundary
    (0.5 + 0.5) and on the Missed boundary (0.5 * 2): it is Missed. *)
Lemma overdue_boundary_classified_missed :
  add_half (Double half) = Returned 1%float
  /\ hours_since total_seconds Sample.one_am (Some Sample.midnight) = 1%float
  /\ status (check_missed_updates total_seconds Sample.one_am
               (Some Sample.one_reading) (Double half))
     = Some Missed
  /\ status (check_missed_updates total_seconds Sample.one_am
               (Some Sample.one_reading) (Double half))
     <> Some Overdue.
Proof.
  split; [reflexivity|]. split; [reflexivity|]. split; [reflexivity|].
  vm_compute. discriminate.
Qed.

(** The boundaries are those of the doubles.  With an interval of 0.64 a
    reading 4104 seconds old, 1.14 hours, is Normal: 0.64 + 0.5 in doubles
    is above 1.14.  With an interval of 0.8 a reading 4680 seconds old,
    1.3 hours, is Overdue. *)
Example boundaries_in_doubles :
  status (check_missed_updates total_seconds (Sample.seconds_past 4104)
            (Some Sample.one_reading) (Double point_64))
  = Some Normal
  /\ status (check_missed_updates total_seconds (Sample.seconds_past 4680)
               (Some Sample.one_reading) (Double point_8))
     = Some Overdue.
Proof. split; reflexivity. Qed.

(** The default interval of three hours: a reading is Normal when it is
    fresh and up to just under three and a half hours, Overdue from there
    to just under six hours, and Missed from six hours on. *)
Example default_interval_in_doubles :
  map (fun m => status (check_missed_updates total_seconds
                          (Sample.minutes_past m)
                          (Some Sample.one_reading) (Whole 3)))
      [0; 209; 210; 359; 360; 600]%Z
  = [Some Normal; Some Normal; Some Overdue; Some Overdue; Some Missed; Some Missed].
Proof. reflexivity. Qed.

End Binary64Facts.

(** ** Frames *)

Section FrameFacts.

Import Frame.

Lemma existsb_eqb_In (k : string) (l : list string) :
  existsb (String.eqb k) l = true <-> In k l.
Proof.
  rewrite existsb_exists. split.
  - intros [x [Hin Heq]]. apply String.eqb_eq in Heq. subst. exact Hin.
  - intros Hin. exists k. split; [exact Hin | apply String.eqb_refl].
Qed.

Lemma union_keys_In (k : string) (ks seen : list string) :
  In k (union_keys seen ks) <-> In k seen \/ In k ks.
Proof.
  revert seen. induction ks as [|a ks IH]; intros seen; simpl.
  - tauto.
  - destruct (existsb (String.eqb a) seen) eqn:Ha.
    + apply existsb_eqb_In in Ha. rewrite IH.
      split; [tauto|]. intros [H|[H|H]]; subst; tauto.
    + rewrite IH, in_app_iff. simpl. tauto.
Qed.

Lemma fold_union_keys_In (k : string) (feeds : list Json.object) (seen : list string) :
  In k (fold_left (fun seen o => union_keys seen (Json.keys o)) feeds seen)
  <-> In k seen \/ exists o, In o feeds /\ In k (Json.keys o).
Proof.
  revert seen. induction feeds as [|o feeds IH]; intros seen; simpl.
  - split; [tauto|]. intros [H|[o [[] _]]]. exact H.
  - rewrite IH, union_keys_In. split.
    + intros [[H|H]|[o' [Hin Hk]]]; eauto.
    + intros [H|[o' [[Heq|Hin] Hk]]]; subst; eauto.
Qed.

Lemma labels_In (k : string) (feeds : list Json.object) :
  In k (labels feeds) <-> exists o, In o feeds /\ In k (Json.keys o).
Proof.
  unfold labels. rewrite fold_union_keys_In. simpl. tauto.
Qed.

Lemma get_keys (k : string) (o : Json.object) :
  In k (Json.keys o) <-> Json.get k o <> None.
Proof.
  induction o as [|[k' v] o IH]; simpl.
  - tauto.
  - destruct (String.eqb_spec k k') as [->|Hne].
    + split; [discriminate | tauto].
    + rewrite <- IH. split; [intros [H|H]; congruence || exact H | tauto].
Qed.

Lemma find_tabulate (k : string) (g : string -> list cell) (ks : list string) :
  find k (map (fun k' => (k', g k')) ks) = if existsb (String.eqb k) ks then Some (g k) else None.
Proof.
  induction ks as [|a ks IH]; simpl; [reflexivity|].
  destruct (String.eqb_spec k a) as [->|Hne]; simpl; [reflexivity | exact IH].
Qed.

Lemma find_replace_same (k : string) (c : list cell) (cols : list (string * list cell)) :
  find k (replace k c cols) = Some c.
Proof.
  induction cols as [|[k' c'] cols IH]; simpl.
  - rewrite String.eqb_refl. reflexivity.
  - destruct (String.eqb_spec k k') as [->|Hne]; simpl.
    + rewrite String.eqb_refl. reflexivity.
    + apply String.eqb_neq in Hne. rewrite Hne. exact IH.
Qed.

Lemma find_replace_other (k k0 : string) (c : list cell) (cols : list (string * list cell)) :
  k <> k0 -> find k (replace k0 c cols) = find k cols.
Proof.
  intros Hne. induction cols as [|[k' c'] cols IH]; simpl.
  - apply String.eqb_neq in Hne. rewrite Hne. reflexivity.
  - destruct (String.eqb_spec k0 k') as [->|Hne']; simpl.
    + apply String.eqb_neq in Hne. rewrite Hne. reflexivity.
    + destruct (String.eqb k k'); [reflexivity | exact IH].
Qed.

(** The column of a fresh frame under a label: the entries' values in the
    order of the feed, when some entry has the key. *)
Lemma find_of_records (k : string) (feeds : list Json.object) :
  find k (columns (of_records feeds))
  = if existsb (String.eqb k) (labels feeds)
    then Some (map (fun o => of_json (Json.get k o)) feeds) else None.
Proof. unfold of_records; simpl. apply find_tabulate. Qed.

Lemma traverse_raises {A B : Type} (f : A -> outcome B) (e : exn) (l : list A) (a : A) :
  (forall x e', f x = Raised e' -> e' = e) ->
  In a l -> f a = Raised e -> traverse f l = Raised e.
Proof.
  intros Honly Hin Ha. induction l as [|x l IH]; simpl in *; [contradiction|].
  destruct (f x) as [b|e'] eqn:Hx; simpl.
  - destruct Hin as [->|Hin]; [congruence|].
    rewrite (IH Hin). reflexivity.
  - f_equal. apply (Honly x). exact Hx.
Qed.

Lemma traverse_returned {A B : Type} (f : A -> outcome B) (l : list A) (l' : list B) :
  Forall2 (fun a b => f a = Returned b) l l' -> traverse f l = Returned l'.
Proof.
  induction 1 as [|a b l l' Hab _ IH]; simpl; [reflexivity|].
  rewrite Hab, IH. reflexivity.
Qed.

Lemma traverse_inv {A B : Type} (f : A -> outcome B) (l : list A) (l' : list B) :
  traverse f l = Returned l' -> Forall2 (fun a b => f a = Returned b) l l'.
Proof.
  revert l'. induction l as [|a l IH]; simpl; intros l' H.
  - injection H as <-. constructor.
  - destruct (f a) as [b|e] eqn:Ha; simpl in H; [|discriminate].
    destruct (traverse f l) as [bs|e]; simpl in H; [|discriminate].
    injection H as <-. constructor; [exact Ha | apply IH; reflexivity].
Qed.

End FrameFacts.

(** ** The normaliser *)

Section NormalizerFacts.

Import Frame.

Variable to_datetime_scalar : string -> option Timestamp.
Variable to_numeric_scalar : string -> option Q.
Variable unquote_plus : string -> string.

Let run := process_data to_datetime_scalar to_numeric_scalar unquote_plus.
Let coerce := coerce_field to_numeric_scalar.
Let numeric := to_numeric to_numeric_scalar.

(** The cells the feed gives under one key, in feed order. *)
Let raw (k : string) (feeds : list Json.object) : list cell :=
  map (fun o => of_json (Json.get k o)) feeds.

Lemma bind_Returned {A B : Type} (a : A) (k : A -> outcome B) :
  bind (Returned a) k = k a.
Proof. reflexivity. Qed.

Lemma nrows_coerce_fields (fs : list string) (df : DataFrame) :
  nrows (fold_left coerce fs df) = nrows df.
Proof.
  revert df. induction fs as [|f fs IH]; intros df; simpl; [reflexivity|].
  rewrite IH. unfold coerce, coerce_field.
  destruct (find f (columns df)); reflexivity.
Qed.

Lemma find_coerce_field (k f : string) (df : DataFrame) :
  find k (columns (coerce df f))
  = if String.eqb k f then option_map numeric (find k (columns df))
    else find k (columns df).
Proof.
  unfold coerce, coerce_field.
  destruct (String.eqb_spec k f) as [->|Hne].
  - destruct (find f (columns df)) as [col|] eqn:Hf; simpl.
    + apply find_replace_same.
    + exact Hf.
  - destruct (find f (columns df)) as [col|]; simpl; [|reflexivity].
    apply find_replace_other. exact Hne.
Qed.

Lemma find_coerce_fields (k : string) (fs : list string) (df : DataFrame) :
  NoDup fs ->
  find k (columns (fold_left coerce fs df))
  = if existsb (String.eqb k) fs then option_map numeric (find k (columns df))
    else find k (columns df).
Proof.
  intros Hnd. revert df.
  induction Hnd as [|f fs Hnotin Hnd IH]; intros df; simpl; [reflexivity|].
  rewrite IH, find_coerce_field.
  destruct (String.eqb_spec k f) as [->|Hne]; simpl; [|reflexivity].
  destruct (existsb (String.eqb f) fs) eqn:Hex; [|reflexivity].
  apply existsb_eqb_In in Hex. contradiction.
Qed.

Lemma numeric_fields_NoDup : NoDup numeric_fields.
Proof.
  unfold numeric_fields.
  repeat (constructor; [simpl; intuition discriminate|]). constructor.
Qed.

Lemma numeric_field_names (f : string) :
  In f numeric_fields ->
  existsb (String.eqb f) numeric_fields = true
  /\ f <> "created_at"%string /\ f <> "field8"%string.
Proof.
  intros Hf. split; [apply existsb_eqb_In; exact Hf|].
  split; intros ->; simpl in Hf; intuition discriminate.
Qed.

Lemma process_data_cons (o : Json.object) (rest : list Json.object) :
  run (Some {| feeds := Some (o :: rest) |})
  = (created_at <- getitem "created_at" (of_records (o :: rest)) ;;
     stamps <- to_datetime to_datetime_scalar created_at ;;
     let df := fold_left coerce numeric_fields
                 (setitem "created_at" stamps (of_records (o :: rest))) in
     match find "field8" (columns df) with
     | Some col =>
         decoded <- traverse (decode_cell unquote_plus) col ;;
         Returned (Some (setitem "field8" decoded df))
     | None => Returned (Some df)
     end).
Proof. reflexivity. Qed.

(** The frame before [field8] is decoded. *)
Let converted (stamps : list cell) (fs : list Json.object) : DataFrame :=
  fold_left coerce numeric_fields (setitem "created_at" stamps (of_records fs)).

Lemma find_converted_created_at (stamps : list cell) (fs : list Json.object) :
  find "created_at" (columns (converted stamps fs)) = Some stamps.
Proof.
  unfold converted. rewrite find_coerce_fields by apply numeric_fields_NoDup.
  simpl existsb. simpl. apply find_replace_same.
Qed.

Lemma find_converted_other (k : string) (stamps : list cell) (fs : list Json.object) :
  k <> "created_at"%string ->
  find k (columns (converted stamps fs))
  = if existsb (String.eqb k) numeric_fields
    then option_map numeric (find k (columns (of_records fs)))
    else find k (columns (of_records fs)).
Proof.
  intros Hne. unfold converted.
  rewrite find_coerce_fields by apply numeric_fields_NoDup.
  simpl columns at 1 2. rewrite !find_replace_other by exact Hne. reflexivity.
Qed.

(** What a returned frame holds: one row per entry, the stamps of the
    entries in feed order, and every numeric column coerced cell by cell. *)
Lemma process_data_returned (fs : list Json.object) (df : DataFrame) :
  run (Some {| feeds := Some fs |}) = Returned (Some df) ->
  fs <> []
  /\ nrows df = List.length fs
  /\ (exists stamps,
         to_datetime to_datetime_scalar (raw "created_at" fs) = Returned stamps
         /\ find "created_at" (columns df) = Some stamps)
  /\ (forall f, In f numeric_fields ->
        find f (columns df)
        = if existsb (String.eqb f) (labels fs)
          then Some (numeric (raw f fs)) else None).
Proof.
  destruct fs as [|o rest]; [discriminate|].
  rewrite process_data_cons.
  remember (o :: rest) as fs eqn:Hfs.
  unfold getitem. rewrite find_of_records.
  destruct (existsb (String.eqb "created_at") (labels fs)); [|discriminate].
  rewrite bind_Returned. fold (raw "created_at" fs).
  destruct (to_datetime to_datetime_scalar (raw "created_at" fs))
    as [stamps|e] eqn:Hstamps; [|discriminate].
  rewrite bind_Returned. cbv zeta. fold (converted stamps fs).
  intros Hrun.
  assert (nrows (converted stamps fs) = List.length fs) as Hrows
    by (unfold converted; rewrite nrows_coerce_fields; reflexivity).
  assert (forall f, In f numeric_fields ->
            find f (columns (converted stamps fs))
            = if existsb (String.eqb f) (labels fs)
              then Some (numeric (raw f fs)) else None) as Hnum.
  { intros f Hf. destruct (numeric_field_names f Hf) as [Hex [Hc _]].
    rewrite find_converted_other by exact Hc. rewrite Hex, find_of_records.
    destruct (existsb (String.eqb f) (labels fs)); reflexivity. }
  split; [rewrite Hfs; discriminate|].
  destruct (find "field8" (columns (converted stamps fs))) as [col|].
  - destruct (traverse (decode_cell unquote_plus) col) as [decoded|e];
      [|discriminate].
    rewrite bind_Returned in Hrun. injection Hrun as <-.
    split; [exact Hrows|]. split.
    + exists stamps. split; [reflexivity|]. simpl columns.
      rewrite find_replace_other by discriminate.
      apply find_converted_created_at.
    + intros f Hf. simpl columns.
      destruct (numeric_field_names f Hf) as [_ [_ H8]].
      rewrite find_replace_other by exact H8. apply Hnum, Hf.
  - injection Hrun as <-.
    split; [exact Hrows|]. split.
    + exists stamps. split; [reflexivity | apply find_converted_created_at].
    + exact Hnum.
Qed.

Lemma traverse_total {A B : Type} (f : A -> outcome B) (l : list A) :
  (forall a, In a l -> exists b, f a = Returned b) ->
  exists l', traverse f l = Returned l'.
Proof.
  induction l as [|a l IH]; intros Hall; simpl.
  - exists []. reflexivity.
  - destruct (Hall a (or_introl eq_refl)) as [b ->].
    destruct IH as [l' ->]; [intros x Hx; apply Hall; right; exact Hx|].
    exists (b :: l'). reflexivity.
Qed.

(** A batch is processed to the end when some entry has a stamp, every
    stamp that is a text is a spelling of NaT or reads, and [field8] holds
    text where it holds anything. *)
Lemma process_data_returns (fs : list Json.object) :
  (exists o, In o fs /\ Json.get "created_at" o <> None) ->
  (forall o, In o fs ->
     match Json.get "created_at" o with
     | Some (Json.Str s) =>
         is_nat_string s = true \/ exists t, to_datetime_scalar s = Some t
     | _ => True
     end) ->
  (forall o q, In o fs -> Json.get "field8" o <> Some (Json.Num q)) ->
  exists df, run (Some {| feeds := Some fs |}) = Returned (Some df).
Proof.
  intros [o1 [Ho1 Hkey]] Hstamps Htext.
  destruct fs as [|o rest]; [contradiction|].
  rewrite process_data_cons.
  remember (o :: rest) as fs eqn:Hfs.
  unfold getitem. rewrite find_of_records.
  assert (existsb (String.eqb "created_at") (labels fs) = true) as ->.
  { apply existsb_eqb_In, labels_In. exists o1. split; [exact Ho1|].
    apply get_keys. exact Hkey. }
  rewrite bind_Returned.
  destruct (traverse_total (to_datetime_cell to_datetime_scalar)
              (map (fun o => of_json (Json.get "created_at" o)) fs)) as [stamps Hs].
  { intros c Hc. apply in_map_iff in Hc. destruct Hc as [o' [<- Ho']].
    specialize (Hstamps o' Ho').
    destruct (Json.get "created_at" o') as [[|s|q]|]; simpl; eauto.
    destruct (is_nat_string s); [eauto|].
    destruct Hstamps as [Hn|[t Ht]]; [discriminate | rewrite Ht; eauto]. }
  unfold to_datetime. rewrite Hs, bind_Returned. cbv zeta.
  fold (converted stamps fs).
  rewrite find_converted_other by discriminate.
  change (existsb (String.eqb "field8") numeric_fields) with false. cbv iota.
  rewrite find_of_records.
  destruct (existsb (String.eqb "field8") (labels fs)); [|eauto].
  destruct (traverse_total (decode_cell unquote_plus)
              (map (fun o => of_json (Json.get "field8" o)) fs)) as [decoded Hd].
  { intros c Hc. apply in_map_iff in Hc. destruct Hc as [o' [<- Ho']].
    destruct (Json.get "field8" o') as [[|s|x]|] eqn:Hget;
      unfold decode_cell; simpl; eauto.
    exfalso. apply (Htext o' x Ho'). exact Hget. }
  rewrite Hd, bind_Returned. eauto.
Qed.

(** A stamp that does not read fails the whole batch. *)
Lemma process_data_raises (fs : list Json.object) (o : Json.object) (s : string) :
  In o fs -> Json.get "created_at" o = Some (Json.Str s) ->
  is_nat_string s = false ->
  to_datetime_scalar s = None ->
  run (Some {| feeds := Some fs |}) = Raised ValueError.
Proof.
  intros Ho Hget Hnat Hs.
  destruct fs as [|o0 rest]; [contradiction|].
  rewrite process_data_cons.
  remember (o0 :: rest) as fs eqn:Hfs.
  unfold getitem. rewrite find_of_records.
  assert (existsb (String.eqb "created_at") (labels fs) = true) as ->.
  { apply existsb_eqb_In, labels_In. exists o. split; [exact Ho|].
    apply get_keys. rewrite Hget. discriminate. }
  rewrite bind_Returned. unfold to_datetime.
  rewrite (traverse_raises (to_datetime_cell to_datetime_scalar) ValueError _
             (of_json (Json.get "created_at" o))).
  - reflexivity.
  - intros c e'. destruct c as [|s'|q|t]; simpl; try discriminate.
    destruct (is_nat_string s'); [discriminate|].
    destruct (to_datetime_scalar s'); [discriminate|]. congruence.
  - apply in_map_iff. exists o. split; [reflexivity | exact Ho].
  - rewrite Hget. simpl. rewrite Hnat, Hs. reflexivity.
Qed.

Lemma process_data_not_empty (data : option RawFeedBatch) (df : DataFrame) :
  run data = Returned (Some df) -> empty df = false.
Proof.
  intros Hrun.
  destruct data as [[[fs|]]|]; try discriminate.
  destruct (process_data_returned fs df Hrun)
    as [Hne [Hrows [[stamps [_ Hfind]] _]]].
  unfold empty. rewrite Hrows.
  destruct fs as [|o rest]; [contradiction|].
  destruct (columns df); [discriminate | reflexivity].
Qed.

(** The freshness check runs to the end on every frame [process_data]
    returns: the [created_at] column is there and holds stamps and NaT
    only. *)
Lemma created_at_after_process_data
  (data : option RawFeedBatch) (df : DataFrame) :
  run data = Returned (Some df) ->
  exists stamps m,
    getitem "created_at" df = Returned stamps
    /\ Freshness.latest stamps = Returned m.
Proof.
  intros Hrun.
  destruct data as [[[fs|]]|]; try discriminate.
  destruct (process_data_returned fs df Hrun)
    as [_ [_ [[stamps [Hstamps Hfind]] _]]].
  assert (exists m, Freshness.latest stamps = Returned m) as [m Hm].
  { apply traverse_inv in Hstamps. clear - Hstamps.
    induction Hstamps as [|c s col stamps Hc _ [m IH]]; simpl.
    - eauto.
    - rewrite IH. destruct c as [|x|q|t]; simpl in Hc.
      + injection Hc as <-. simpl. eauto.
      + destruct (is_nat_string x); [injection Hc as <-; simpl; eauto|].
        destruct (to_datetime_scalar x); [|discriminate].
        injection Hc as <-. simpl. eauto.
      + injection Hc as <-. simpl. eauto.
      + injection Hc as <-. simpl. eauto. }
  exists stamps, m. unfold getitem. rewrite Hfind. split; [reflexivity | exact Hm].
Qed.

Lemma check_missed_updates_after_process_data
  (total_seconds : Z -> PrimFloat.float)
  (data : option RawFeedBatch) (df : DataFrame) (clock : Freshness.Clock) :
  run data = Returned (Some df) ->
  exists kind msg,
    Binary64.check_missed_updates total_seconds clock (Some df)
      (Binary64.Whole 3)
    = Returned (kind, msg)
    /\ Freshness.status_of kind <> None.
Proof.
  intros Hrun. pose proof (process_data_not_empty data df Hrun) as Hne.
  destruct (created_at_after_process_data data df Hrun)
    as [stamps [m [Hcol Hm]]].
  unfold Binary64.check_missed_updates.
  rewrite Hne, Hcol, bind_Returned, Hm, bind_Returned. cbv zeta.
  destruct (Binary64.add_half (Binary64.Whole 3)) as [w|err] eqn:Hw;
    [|vm_compute in Hw; discriminate].
  rewrite bind_Returned.
  destruct (Binary64.ge _ _);
    [eexists _, _; split; [reflexivity|discriminate]|].
  destruct (PrimFloat.leb _ _);
    [eexists _, _; split; [reflexivity|discriminate]|].
  unfold Binary64.minus. unfold Binary64.add_half in Hw.
  destruct (Binary64.as_float (Binary64.Whole 3)) as [x|err];
    [|discriminate].
  rewrite !bind_Returned.
  eexists _, _; split; [reflexivity|discriminate].
Qed.

End NormalizerFacts.

Section NormalizerClaims.

Import Frame.

(** C3 (amended).  For a batch that is absent, has no feed list or has an
    empty one, [process_data] raises nothing and returns [None], the absent
    result; a frame it does return is never empty. *)
Theorem process_data_without_feeds :
  forall (to_datetime_scalar : string -> option Timestamp)
         (to_numeric_scalar : string -> option Q)
         (unquote_plus : string -> string),
    let run := process_data to_datetime_scalar to_numeric_scalar unquote_plus in
    run None = Returned None
    /\ run (Some {| feeds := None |}) = Returned None
    /\ run (Some {| feeds := Some [] |}) = Returned None
    /\ (forall data df, run data = Returned (Some df) -> empty df = false).
Proof.
  intros tdt tnum unq run. repeat split.
  apply process_data_not_empty.
Qed.

(** C3 as stated fails: on an empty feed list the result is [None], no
    frame at all, so no empty sequence of records. *)
Lemma empty_feed_list_gives_none :
  Readers.process_data (Some {| feeds := Some [] |}) = Returned None
  /\ ~ (exists df, Readers.process_data (Some {| feeds := Some [] |})
                   = Returned (Some df)).
Proof.
  split; [reflexivity|]. intros [df H]. discriminate H.
Qed.

(** C4 (amended).  [process_data] drops no entry.  A batch in which some
    entry has a stamp that [pd.to_datetime] rejects, a text that is neither
    a spelling of NaT nor read as a date, fails as a whole with ValueError.
    A batch that is processed keeps every entry: the frame has one row per
    entry and its [created_at] column holds the entries' stamps in feed
    order, NaT where the stamp is null, missing or a spelling of NaT such as
    the empty text.  A batch is processed when some entry has a stamp, every
    text stamp is a spelling of NaT or reads, and [field8] holds text where
    it holds anything. *)
Theorem process_data_keeps_all_or_fails :
  forall (to_datetime_scalar : string -> option Timestamp)
         (to_numeric_scalar : string -> option Q)
         (unquote_plus : string -> string)
         (fs : list Json.object),
    let run := process_data to_datetime_scalar to_numeric_scalar unquote_plus in
    ((exists o s, In o fs /\ Json.get "created_at" o = Some (Json.Str s)
                  /\ is_nat_string s = false
                  /\ to_datetime_scalar s = None) ->
     run (Some {| feeds := Some fs |}) = Raised ValueError)
    /\ (forall df, run (Some {| feeds := Some fs |}) = Returned (Some df) ->
          nrows df = List.length fs
          /\ exists stamps,
               find "created_at" (columns df) = Some stamps
               /\ Forall2 (fun o c =>
                             to_datetime_cell to_datetime_scalar
                               (of_json (Json.get "created_at" o)) = Returned c)
                          fs stamps)
    /\ (forall s, is_nat_string s = true ->
          to_datetime_cell to_datetime_scalar (Text s) = Returned NA)
    /\ to_datetime_cell to_datetime_scalar (of_json (Some Json.Null)) = Returned NA
    /\ to_datetime_cell to_datetime_scalar (of_json None) = Returned NA
    /\ ((exists o, In o fs /\ Json.get "created_at" o <> None) ->
        (forall o, In o fs ->
           match Json.get "created_at" o with
           | Some (Json.Str s) =>
               is_nat_string s = true \/ exists t, to_datetime_scalar s = Some t
           | _ => True
           end) ->
        (forall o q, In o fs -> Json.get "field8" o <> Some (Json.Num q)) ->
        exists df, run (Some {| feeds := Some fs |}) = Returned (Some df)).
Proof.
  intros tdt tnum unq fs run. split; [|split; [|split; [|split; [|split]]]].
  - intros [o [s [Ho [Hget [Hnat Hs]]]]].
    apply (process_data_raises tdt tnum unq fs o s); assumption.
  - intros df Hrun.
    destruct (process_data_returned tdt tnum unq fs df Hrun)
      as [_ [Hrows [[stamps [Hstamps Hfind]] _]]].
    split; [exact Hrows|]. exists stamps. split; [exact Hfind|].
    apply traverse_inv in Hstamps.
    clear - Hstamps. remember (map _ fs) as col eqn:Hcol.
    revert fs Hcol. induction Hstamps as [|c s col stamps Hc _ IH]; intros fs Hcol.
    + destruct fs; [constructor | discriminate].
    + destruct fs as [|o fs]; [discriminate|]. injection Hcol as -> ->.
      constructor; [exact Hc | apply IH; reflexivity].
  - intros s Hs. simpl. rewrite Hs. reflexivity.
  - reflexivity.
  - reflexivity.
  - apply process_data_returns.
Qed.

(** The five sample entries fail on the stamp of the second one. *)
Lemma process_data_keeps_all_or_fails_witness :
  (exists o s, In o Sample.five_entries
               /\ Json.get "created_at" o = Some (Json.Str s)
               /\ is_nat_string s = false
               /\ Readers.iso8601 s = None)
  /\ Readers.process_data (Some {| feeds := Some Sample.five_entries |})
     = Raised ValueError.
Proof.
  assert (exists o s, In o Sample.five_entries
                      /\ Json.get "created_at" o = Some (Json.Str s)
                      /\ is_nat_string s = false
                      /\ Readers.iso8601 s = None) as H.
  { exists (Sample.entry "not-a-date" "21.0"), "not-a-date"%string.
    split; [right; left; reflexivity|]. repeat split. }
  split; [exact H|].
  exact (proj1 (process_data_keeps_all_or_fails Readers.iso8601 Readers.decimal
                  Readers.percent_decode Sample.five_entries) H).
Defined.

(** Three entries of which the second has the empty text for a stamp: the
    row stays, with NaT. *)
Example empty_stamp_keeps_its_row :
  exists df,
    Readers.process_data (Some {| feeds := Some Logs.blank_stamp |})
    = Returned (Some df)
    /\ nrows df = 3%nat
    /\ find "created_at" (columns df)
       = Some [Stamp {| epoch_ns := 1705276800000000000; tz := Some 0%Z |}; NA;
               Stamp {| epoch_ns := 1705298400000000000; tz := Some 0%Z |}].
Proof. eexists. repeat split. Qed.

(** C4 as stated fails: of five entries where the stamps of the second and
    the fourth do not read, no three records come back; the batch fails. *)
Lemma five_entries_batch_fails :
  map (fun o => match Json.get "created_at" o with
                | Some (Json.Str s) =>
                    match Readers.iso8601 s with Some _ => true | None => false end
                | _ => false
                end) Sample.five_entries
  = [true; false; true; false; true]
  /\ Readers.process_data (Some {| feeds := Some Sample.five_entries |})
     = Raised ValueError
  /\ ~ (exists df, Readers.process_data (Some {| feeds := Some Sample.five_entries |})
                   = Returned (Some df) /\ nrows df = 3%nat).
Proof.
  split; [reflexivity|]. split; [reflexivity|].
  intros [df [H _]]. discriminate H.
Qed.

(** C5.  In a frame [process_data] returns, the cell of each numeric field
    of each entry is the entry's value coerced: the number a text reads as,
    and NaN, never zero, for a text that reads as no number and for a value
    that is null or missing (a field no entry has is no column at all).  The
    coercion raises nothing.  So "23.5", "abc" and a missing [field1] are
    stored as 23.5, NaN and NaN. *)
Theorem numeric_fields_parse_or_absent :
  (forall (to_datetime_scalar : string -> option Timestamp)
          (to_numeric_scalar : string -> option Q)
          (unquote_plus : string -> string)
          (fs : list Json.object) (df : DataFrame)
          (i : nat) (o : Json.object) (f : string),
      process_data to_datetime_scalar to_numeric_scalar unquote_plus
        (Some {| feeds := Some fs |}) = Returned (Some df) ->
      nth_error fs i = Some o ->
      In f numeric_fields ->
      match find f (columns df) with
      | Some col =>
          nth_error col i
          = Some (to_numeric_cell to_numeric_scalar (of_json (Json.get f o)))
      | None => Json.get f o = None
      end)
  /\ (forall (to_numeric_scalar : string -> option Q) (s : string),
        to_numeric_cell to_numeric_scalar (Text s)
        = match to_numeric_scalar s with Some q => Number q | None => NA end)
  /\ (forall to_numeric_scalar : string -> option Q,
        to_numeric_cell to_numeric_scalar (of_json (Some Json.Null)) = NA
        /\ to_numeric_cell to_numeric_scalar (of_json None) = NA)
  /\ NA <> Number 0
  /\ to_numeric_cell Readers.decimal (of_json (Some (Json.Str "23.5"))) = Number (47 # 2)
  /\ to_numeric_cell Readers.decimal (of_json (Some (Json.Str "abc"))) = NA
  /\ (exists df,
        Readers.process_data (Some {| feeds := Some Sample.three_entries |})
        = Returned (Some df)
        /\ find "field1" (columns df) = Some [Number (47 # 2); NA; NA]).
Proof.
  split.
  { intros tdt tnum unq fs df i o f Hrun Hi Hf.
    destruct (process_data_returned tdt tnum unq fs df Hrun)
      as [_ [_ [_ Hnum]]].
    rewrite (Hnum f Hf).
    destruct (existsb (String.eqb f) (labels fs)) eqn:Hex.
    - unfold to_numeric. rewrite !nth_error_map, Hi. reflexivity.
    - destruct (Json.get f o) as [v|] eqn:Hget; [|reflexivity]. exfalso.
      assert (existsb (String.eqb f) (labels fs) = true) as Hin; [|congruence].
      apply existsb_eqb_In, labels_In. exists o.
      split; [apply (nth_error_In _ _ Hi)|].
      apply get_keys. rewrite Hget. discriminate. }
  split; [reflexivity|]. split; [split; reflexivity|].
  split; [discriminate|]. split; [reflexivity|]. split; [reflexivity|].
  eexists. split; reflexivity.
Qed.

(** The second sample entry, whose [field1] is the word "abc". *)
Lemma numeric_fields_parse_or_absent_witness :
  nth_error Sample.three_entries 1
  = Some (Sample.entry "2024-01-15T03:00:00Z" "abc")
  /\ In "field1"%string numeric_fields
  /\ exists df,
       Readers.process_data (Some {| feeds := Some Sample.three_entries |})
       = Returned (Some df)
       /\ match find "field1" (columns df) with
          | Some col => nth_error col 1 = Some NA
          | None => False
          end.
Proof.
  split; [reflexivity|]. split; [left; reflexivity|].
  eexists. split; [reflexivity|].
  exact (proj1 numeric_fields_parse_or_absent
           Readers.iso8601 Readers.decimal Readers.percent_decode
           Sample.three_entries _ 1%nat
           (Sample.entry "2024-01-15T03:00:00Z" "abc") "field1"%string
           eq_refl eq_refl (or_introl eq_refl)).
Defined.

End NormalizerClaims.

(** ** Signal strength *)

Section SignalFacts.

Import Signal.

Local Open Scope string_scope.

Lemma append_assoc (a b c : string) : (a ++ b) ++ c = a ++ b ++ c.
Proof. induction a as [|x a IH]; simpl; [reflexivity | rewrite IH; reflexivity]. Qed.

Lemma literal_spec (lit s r : string) : literal lit s = Some r <-> s = lit ++ r.
Proof.
  revert s. induction lit as [|a lit IH]; intros s; simpl.
  - split; congruence.
  - destruct s as [|b s].
    + split; discriminate.
    + destruct (Ascii.eqb_spec a b) as [->|Hne].
      * rewrite IH. split; congruence.
      * split; [discriminate | congruence].
Qed.

Lemma run_spec (p : ascii -> bool) (s a b : string) :
  run p s = (a, b) -> s = a ++ b /\ all p a = true /\ stops p b.
Proof.
  revert a b. induction s as [|c s IH]; simpl; intros a b H.
  - injection H as <- <-. simpl. auto.
  - destruct (p c) eqn:Hc.
    + destruct (run p s) as [r k]. injection H as <- <-.
      destruct (IH r k eq_refl) as [-> [Hall Hstop]].
      simpl. rewrite Hc, Hall. auto.
    + injection H as <- <-. simpl. auto.
Qed.

Lemma run_app (p : ascii -> bool) (a b : string) :
  all p a = true -> stops p b -> run p (a ++ b) = (a, b).
Proof.
  intros Hall Hstop. induction a as [|c a IH]; simpl in *.
  - destruct b as [|c b]; [reflexivity|]. simpl in *. rewrite Hstop. reflexivity.
  - apply andb_true_iff in Hall. destruct Hall as [Hc Hall].
    rewrite Hc, (IH Hall). reflexivity.
Qed.

Lemma digit_not_space (c : ascii) : is_digit c = true -> is_space c = false.
Proof.
  destruct c as [[] [] [] [] [] [] [] []]; vm_compute; congruence.
Qed.

Lemma digit_not_minus (c : ascii) : is_digit c = true -> Ascii.eqb c "-" = false.
Proof.
  destruct c as [[] [] [] [] [] [] [] []]; vm_compute; congruence.
Qed.

Lemma space_not_digit (c : ascii) : is_space c = true -> is_digit c = false.
Proof.
  intros Hs. destruct (is_digit c) eqn:Hd; [|reflexivity].
  apply digit_not_space in Hd. congruence.
Qed.

Lemma minus_sign_spec (s r : string) (negative : bool) :
  minus_sign s = (negative, r) -> s = sign_text negative ++ r.
Proof.
  destruct s as [|c s]; simpl.
  - intros H. injection H as <- <-. reflexivity.
  - destruct (Ascii.eqb_spec c "-") as [->|Hne]; intros H; injection H as <- <-;
      reflexivity.
Qed.

(** Anchored at the head of the text, the matcher accepts the grammar of
    the pattern and nothing else. *)
Lemma match_here_spec (s : string) (n : Z) : match_here s = Some n <-> Matches s n.
Proof.
  unfold match_here, Matches. split.
  - destruct (literal "Signal:" s) as [s1|] eqn:H1; [|discriminate].
    apply literal_spec in H1.
    destruct (run is_space s1) as [ws1 s2] eqn:H2. apply run_spec in H2.
    destruct H2 as [-> [Hws1 _]].
    destruct (minus_sign s2) as [negative s3] eqn:H3. apply minus_sign_spec in H3.
    destruct (run is_digit s3) as [ds s4] eqn:H4. apply run_spec in H4.
    destruct H4 as [-> [Hds _]].
    destruct ds as [|d ds]; [discriminate|].
    destruct (run is_space s4) as [ws2 s5] eqn:H5. apply run_spec in H5.
    destruct H5 as [-> [Hws2 _]].
    destruct (literal "dBm" s5) as [tail|] eqn:H6; [|discriminate].
    apply literal_spec in H6. intros Hn. injection Hn as <-.
    exists ws1, negative, (String d ds), ws2, tail.
    subst. rewrite ?append_assoc.
    repeat split; try assumption. discriminate.
  - intros [ws1 [negative [ds [ws2 [tail [-> [Hws1 [Hds [Hne [Hws2 ->]]]]]]]]]].
    assert (literal "Signal:"
              ("Signal:" ++ ws1 ++ sign_text negative ++ ds ++ ws2 ++ "dBm" ++ tail)
            = Some (ws1 ++ sign_text negative ++ ds ++ ws2 ++ "dBm" ++ tail)) as ->
      by (apply literal_spec; reflexivity).
    destruct ds as [|d ds]; [contradiction|].
    simpl in Hds. apply andb_true_iff in Hds. destruct Hds as [Hd Hds].
    assert (stops is_digit (ws2 ++ "dBm" ++ tail)) as Hstop_d.
    { destruct ws2 as [|w ws2]; simpl; [reflexivity|].
      simpl in Hws2. apply andb_true_iff in Hws2. apply space_not_digit. tauto. }
    assert (stops is_space ("dBm" ++ tail)) as Hstop_s by reflexivity.
    rewrite run_app; [|exact Hws1|destruct negative; simpl;
                                  [reflexivity | apply digit_not_space; exact Hd]].
    assert (minus_sign (sign_text negative ++ String d ds ++ ws2 ++ "dBm" ++ tail)
            = (negative, String d ds ++ ws2 ++ "dBm" ++ tail)) as ->.
    { destruct negative; simpl; [reflexivity|].
      rewrite (digit_not_minus d Hd). reflexivity. }
    rewrite run_app; [|simpl; rewrite Hd, Hds; reflexivity | exact Hstop_d].
    rewrite run_app; [|exact Hws2 | exact Hstop_s].
    assert (literal "dBm" ("dBm" ++ tail) = Some tail) as ->
      by (apply literal_spec; reflexivity).
    reflexivity.
Qed.

Lemma search_eq (s : string) :
  search s = match match_here s with
             | Some n => Some n
             | None => match s with
                       | EmptyString => None
                       | String _ rest => search rest
                       end
             end.
Proof. destruct s; reflexivity. Qed.

Lemma search_none (s : string) :
  search s = None <-> forall b r, s = b ++ r -> match_here r = None.
Proof.
  induction s as [|c s IH]; rewrite search_eq.
  - split; [|reflexivity]. intros _ b r H.
    destruct b; [|discriminate]. simpl in H. subst. reflexivity.
  - destruct (match_here (String c s)) as [n|] eqn:Hh.
    + split; [discriminate|]. intros H. rewrite (H EmptyString (String c s) eq_refl) in Hh.
      discriminate.
    + rewrite IH. split.
      * intros H b r Hs. destruct b as [|x b]; simpl in Hs.
        -- subst. exact Hh.
        -- injection Hs as -> Hs. apply (H b r Hs).
      * intros H b r Hs. apply (H (String c b) r). simpl. rewrite Hs. reflexivity.
Qed.

Lemma search_some (s : string) (n : Z) :
  search s = Some n <->
  exists b r, s = b ++ r /\ match_here r = Some n /\
    forall b' r', s = b' ++ r' -> (String.length b' < String.length b)%nat ->
                  match_here r' = None.
Proof.
  induction s as [|c s IH]; rewrite search_eq.
  - split; [discriminate|]. intros [b [r [Hs [Hm _]]]].
    destruct b; [|discriminate]. simpl in Hs. subst. discriminate.
  - destruct (match_here (String c s)) as [m|] eqn:Hh.
    + split.
      * intros H. injection H as ->. exists EmptyString, (String c s).
        split; [reflexivity|]. split; [exact Hh|]. simpl. intros; lia.
      * intros [b [r [Hs [Hm Hmin]]]]. destruct b as [|x b]; simpl in Hs.
        -- subst. congruence.
        -- rewrite (Hmin EmptyString (String c s) eq_refl) in Hh; [discriminate | simpl; lia].
    + rewrite IH. split.
      * intros [b [r [Hs [Hm Hmin]]]]. exists (String c b), r.
        split; [simpl; rewrite Hs; reflexivity|]. split; [exact Hm|].
        intros b' r' Hs' Hlen. destruct b' as [|x b']; simpl in Hs'.
        -- subst. exact Hh.
        -- injection Hs' as -> Hs'. apply (Hmin b' r' Hs'). simpl in Hlen. lia.
      * intros [b [r [Hs [Hm Hmin]]]]. destruct b as [|x b]; simpl in Hs.
        -- subst. congruence.
        -- injection Hs as <- Hs. exists b, r. split; [exact Hs|]. split; [exact Hm|].
           intros b' r' Hs' Hlen. apply (Hmin (String c b') r').
           ++ simpl. rewrite Hs'. reflexivity.
           ++ simpl. lia.
Qed.

Lemma match_here_none (s : string) :
  match_here s = None <-> forall m, ~ Matches s m.
Proof.
  split.
  - intros H m Hm. apply match_here_spec in Hm. congruence.
  - intros H. destruct (match_here s) as [m|] eqn:Hm; [|reflexivity].
    apply match_here_spec in Hm. destruct (H m Hm).
Qed.

End SignalFacts.

(** ** The pattern over any alphabet *)

Section PatternFacts.

Variable char : Type.
Variable char_eqb : char -> char -> bool.
Variable lit : ascii -> char.
Variable is_space : char -> bool.
Variable is_digit : char -> bool.
Variable digit_value : char -> Z.
Variable chars : string -> list char.

(** What the matcher needs of an alphabet: equality is decided, no digit is
    white space, and the minus sign and the letter [d] are neither white
    space nor digits. *)
Hypothesis char_eqb_spec : forall a b, char_eqb a b = true <-> a = b.
Hypothesis digit_is_no_space : forall c, is_digit c = true -> is_space c = false.
Hypothesis minus_is_no_digit : is_digit (lit "-"%char) = false.
Hypothesis minus_is_no_space : is_space (lit "-"%char) = false.
Hypothesis d_is_no_space : is_space (lit "d"%char) = false.
Hypothesis d_is_no_digit : is_digit (lit "d"%char) = false.

(** What ties an alphabet to ASCII: its letters are distinct, ASCII text
    spells out letter by letter, white space and digits are [Signal]'s on
    the letters of ASCII, and an ASCII digit has its usual value. *)
Hypothesis lit_injective :
  forall a b, Pattern.seven_bit a = true -> Pattern.seven_bit b = true ->
              lit a = lit b -> a = b.
Hypothesis chars_of_ascii :
  forall s, Signal.all Pattern.seven_bit s = true ->
            chars s = Pattern.letters char lit s.
Hypothesis space_on_ascii :
  forall a, Pattern.seven_bit a = true -> is_space (lit a) = Signal.is_space a.
Hypothesis digit_on_ascii :
  forall a, Pattern.seven_bit a = true -> is_digit (lit a) = Signal.is_digit a.
Hypothesis value_on_ascii :
  forall a, Signal.is_digit a = true ->
            digit_value (lit a) = Z.of_nat (nat_of_ascii a) - 48.

Local Notation "'letters'" := (Pattern.letters char lit) (only parsing).
Local Notation "'literal'" := (Pattern.literal char char_eqb) (only parsing).
Local Notation "'run'" := (Pattern.run char) (only parsing).
Local Notation "'minus_sign'" := (Pattern.minus_sign char char_eqb lit) (only parsing).
Local Notation "'group_value'" := (Pattern.group_value char digit_value) (only parsing).
Local Notation "'match_here'" :=
  (Pattern.match_here char char_eqb lit is_space is_digit digit_value)
  (only parsing).
Local Notation "'search'" :=
  (Pattern.search char char_eqb lit is_space is_digit digit_value)
  (only parsing).
Local Notation "'Matches'" :=
  (Pattern.Matches char lit is_space is_digit digit_value) (only parsing).
Local Notation "'Found'" := (Pattern.Found char lit is_space is_digit digit_value) (only parsing).
Local Notation "'stops'" := (Pattern.stops char) (only parsing).
Local Notation "'extract'" :=
  (Pattern.extract_signal_strength char char_eqb lit is_space is_digit
     digit_value chars) (only parsing).
Local Notation "'all7'" := (Signal.all Pattern.seven_bit) (only parsing).







Lemma pattern_search_eq (s : list char) :
  search s = match match_here s with
             | Some n => Some n
             | None => match s with
                       | [] => None
                       | _ :: rest => search rest
                       end
             end.
Proof. destruct s; reflexivity. Qed.






(** *** ASCII text *)

Lemma all_append (p : ascii -> bool) (a b : string) :
  Signal.all p (a ++ b) = (Signal.all p a && Signal.all p b)%bool.
Proof.
  induction a as [|c a IH]; simpl; [reflexivity|].
  rewrite IH. apply andb_assoc.
Qed.

Lemma char_eqb_on_ascii (a b : ascii) :
  Pattern.seven_bit a = true -> Pattern.seven_bit b = true ->
  char_eqb (lit a) (lit b) = Ascii.eqb a b.
Proof.
  intros Ha Hb. apply Bool.eq_true_iff_eq.
  rewrite char_eqb_spec, Ascii.eqb_eq. split; [|congruence].
  apply lit_injective; assumption.
Qed.

Lemma literal_on_ascii (w s : string) :
  all7 w = true -> all7 s = true ->
  literal (letters w) (letters s) = option_map (fun r => letters r) (Signal.literal w s).
Proof.
  revert s. induction w as [|a w IH]; intros s Hw Hs; simpl; [reflexivity|].
  simpl in Hw. apply andb_true_iff in Hw. destruct Hw as [Ha Hw].
  destruct s as [|b s]; simpl; [reflexivity|].
  simpl in Hs. apply andb_true_iff in Hs. destruct Hs as [Hb Hs].
  rewrite (char_eqb_on_ascii a b Ha Hb).
  destruct (Ascii.eqb a b); [apply IH; assumption | reflexivity].
Qed.

Lemma run_on_ascii (p' : char -> bool) (p : ascii -> bool) (s : string) :
  (forall a, Pattern.seven_bit a = true -> p' (lit a) = p a) ->
  all7 s = true ->
  run p' (letters s)
  = (letters (fst (Signal.run p s)), letters (snd (Signal.run p s))).
Proof.
  intros Hp. induction s as [|c s IH]; intros Hs; simpl; [reflexivity|].
  simpl in Hs. apply andb_true_iff in Hs. destruct Hs as [Hc Hs].
  rewrite (Hp c Hc). destruct (p c); [|reflexivity].
  change (map lit (list_ascii_of_string s)) with (letters s).
  rewrite (IH Hs). destruct (Signal.run p s). reflexivity.
Qed.

Lemma minus_sign_on_ascii (s : string) :
  all7 s = true ->
  minus_sign (letters s)
  = (fst (Signal.minus_sign s), letters (snd (Signal.minus_sign s))).
Proof.
  destruct s as [|c s]; intros Hs; simpl; [reflexivity|].
  simpl in Hs. apply andb_true_iff in Hs. destruct Hs as [Hc _].
  rewrite (char_eqb_on_ascii c "-"%char Hc eq_refl).
  destruct (Ascii.eqb c "-"); reflexivity.
Qed.

Lemma digits_value_on_ascii (ds : string) (acc : Z) :
  Signal.all Signal.is_digit ds = true ->
  Pattern.digits_value char digit_value acc (letters ds)
  = Signal.digits_value acc ds.
Proof.
  revert acc. induction ds as [|c ds IH]; intros acc Hds; simpl; [reflexivity|].
  simpl in Hds. apply andb_true_iff in Hds. destruct Hds as [Hc Hds].
  rewrite (value_on_ascii c Hc). apply IH. exact Hds.
Qed.

Lemma literal_rest_ascii (w s r : string) :
  Signal.literal w s = Some r -> all7 s = true -> all7 r = true.
Proof.
  intros H Hs. apply literal_spec in H. subst s.
  rewrite all_append in Hs. apply andb_true_iff in Hs. tauto.
Qed.

Lemma run_parts_ascii (p : ascii -> bool) (s a b : string) :
  Signal.run p s = (a, b) -> all7 s = true ->
  all7 a = true /\ all7 b = true /\ Signal.all p a = true.
Proof.
  intros H Hs. apply run_spec in H. destruct H as [-> [Hp _]].
  rewrite all_append in Hs. apply andb_true_iff in Hs. tauto.
Qed.

Lemma minus_sign_rest_ascii (s r : string) (negative : bool) :
  Signal.minus_sign s = (negative, r) -> all7 s = true -> all7 r = true.
Proof.
  intros H Hs. apply minus_sign_spec in H. subst s.
  rewrite all_append in Hs. apply andb_true_iff in Hs. tauto.
Qed.

(** On ASCII text every such alphabet matches as [Signal] does. *)
Lemma match_here_on_ascii (s : string) :
  all7 s = true -> match_here (letters s) = Signal.match_here s.
Proof.
  intros Hs. unfold Pattern.match_here, Signal.match_here.
  rewrite (literal_on_ascii "Signal:" s eq_refl Hs).
  destruct (Signal.literal "Signal:" s) as [s1|] eqn:H1; [|reflexivity].
  simpl option_map. cbv beta iota.
  pose proof (literal_rest_ascii _ _ _ H1 Hs) as Hs1.
  rewrite (run_on_ascii is_space Signal.is_space s1 space_on_ascii Hs1).
  destruct (Signal.run Signal.is_space s1) as [ws1 s2] eqn:H2.
  simpl fst; simpl snd; cbv beta iota.
  destruct (run_parts_ascii _ _ _ _ H2 Hs1) as [_ [Hs2 _]].
  rewrite (minus_sign_on_ascii s2 Hs2).
  destruct (Signal.minus_sign s2) as [negative s3] eqn:H3.
  simpl fst; simpl snd; cbv beta iota.
  pose proof (minus_sign_rest_ascii _ _ _ H3 Hs2) as Hs3.
  rewrite (run_on_ascii is_digit Signal.is_digit s3 digit_on_ascii Hs3).
  destruct (Signal.run Signal.is_digit s3) as [ds s4] eqn:H4.
  simpl fst; simpl snd; cbv beta iota.
  destruct (run_parts_ascii _ _ _ _ H4 Hs3) as [_ [Hs4 Hds]].
  destruct ds as [|d ds]; [reflexivity|].
  change (letters (String d ds)) with (lit d :: letters ds). cbv beta iota.
  rewrite (run_on_ascii is_space Signal.is_space s4 space_on_ascii Hs4).
  destruct (Signal.run Signal.is_space s4) as [ws2 s5] eqn:H5.
  simpl fst; simpl snd; cbv beta iota.
  destruct (run_parts_ascii _ _ _ _ H5 Hs4) as [_ [Hs5 _]].
  rewrite (literal_on_ascii "dBm" s5 eq_refl Hs5).
  destruct (Signal.literal "dBm" s5) as [rest|]; [|reflexivity].
  simpl option_map. cbv beta iota. f_equal.
  unfold Pattern.group_value, Signal.group_value.
  change (lit d :: letters ds) with (letters (String d ds)).
  rewrite (digits_value_on_ascii (String d ds) 0 Hds). reflexivity.
Qed.

Lemma search_on_ascii (s : string) :
  all7 s = true -> search (letters s) = Signal.search s.
Proof.
  induction s as [|c s IH]; intros Hs.
  - reflexivity.
  - rewrite pattern_search_eq, search_eq, (match_here_on_ascii _ Hs).
    destruct (Signal.match_here (String c s)); [reflexivity|].
    simpl in Hs. apply andb_true_iff in Hs. apply IH. tauto.
Qed.

Lemma extract_on_ascii (s : string) :
  all7 s = true -> extract (Text s) = Returned (Signal.search s).
Proof.
  intros Hs. unfold Pattern.extract_signal_strength. simpl.
  rewrite (chars_of_ascii s Hs). f_equal. apply search_on_ascii. exact Hs.
Qed.


End PatternFacts.

(** *** Python's alphabet *)

Section CodePointFacts.

Import CodePoints.



Lemma code_point_lit_injective (a b : ascii) :
  Pattern.seven_bit a = true -> Pattern.seven_bit b = true ->
  lit a = lit b -> a = b.
Proof.
  intros _ _ H. unfold lit in H.
  rewrite <- (ascii_N_embedding a), <- (ascii_N_embedding b), H. reflexivity.
Qed.

Lemma seven_bit_byte (a : ascii) :
  Pattern.seven_bit a = true -> (N_of_ascii a <? 192)%N = true.
Proof.
  destruct a as [[] [] [] [] [] [] [] []]; vm_compute; congruence.
Qed.

Lemma code_point_chars_of_ascii (s : string) :
  Signal.all Pattern.seven_bit s = true ->
  chars s = Pattern.letters char lit s.
Proof.
  unfold chars, Pattern.letters.
  induction s as [|c s IH]; intros Hs; [reflexivity|].
  simpl in Hs. apply andb_true_iff in Hs. destruct Hs as [Hc Hs].
  simpl. rewrite (seven_bit_byte c Hc). f_equal. apply IH. exact Hs.
Qed.

Lemma code_point_space_on_ascii (a : ascii) :
  Pattern.seven_bit a = true -> is_space (lit a) = Signal.is_space a.
Proof.
  destruct a as [[] [] [] [] [] [] [] []]; vm_compute; congruence.
Qed.

Lemma code_point_digit_on_ascii (a : ascii) :
  Pattern.seven_bit a = true -> is_digit (lit a) = Signal.is_digit a.
Proof.
  destruct a as [[] [] [] [] [] [] [] []]; vm_compute; congruence.
Qed.

Lemma code_point_value_on_ascii (a : ascii) :
  Signal.is_digit a = true ->
  digit_value (lit a) = Z.of_nat (nat_of_ascii a) - 48.
Proof.
  destruct a as [[] [] [] [] [] [] [] []]; vm_compute; congruence.
Qed.


(** A no-break space is white space to the pattern, and a digit of another
    script is a digit. *)
Example no_break_space_is_white_space :
  extract_signal_strength (Text ("Signal:" ++ no_break_space ++ "-5 dBm"))
  = Returned (Some (-5)%Z).
Proof. reflexivity. Qed.

Example arabic_indic_digit_is_read :
  extract_signal_strength (Text "Signal: ٣ dBm") = Returned (Some 3%Z)
  /\ extract_signal_strength (Text "Signal: -٦٧ dBm") = Returned (Some (-67)%Z)
  /\ extract_signal_strength (Text "Signal: 4٢ dBm") = Returned (Some 42%Z).
Proof. repeat split. Qed.

(** [Signal] is this alphabet on ASCII text. *)
Lemma code_points_on_ascii (s : string) :
  Signal.all Pattern.seven_bit s = true ->
  extract_signal_strength (Text s)
  = Returned (Signal.extract_signal_strength (Text s)).
Proof.
  intros Hs.
  exact (extract_on_ascii char N.eqb lit is_space is_digit digit_value chars
           N.eqb_eq code_point_lit_injective code_point_chars_of_ascii
           code_point_space_on_ascii code_point_digit_on_ascii
           code_point_value_on_ascii s Hs).
Qed.

End CodePointFacts.

(** * Further properties *)

(** ** The frame [process_data] returns *)

Section NormalizerShape.

Import Frame.

Variable to_datetime_scalar : string -> option Timestamp.
Variable to_numeric_scalar : string -> option Q.
Variable unquote_plus : string -> string.

Let run := process_data to_datetime_scalar to_numeric_scalar unquote_plus.

Lemma keys_replace (k : string) (c : list cell) (cols : list (string * list cell)) :
  find k cols <> None -> map fst (replace k c cols) = map fst cols.
Proof.
  induction cols as [|[k' c'] cols IH]; simpl; [congruence|].
  destruct (String.eqb k k'); simpl; intros H; [reflexivity|].
  rewrite IH by exact H. reflexivity.
Qed.

Lemma keys_setitem (k : string) (c : list cell) (df : DataFrame) :
  find k (columns df) <> None ->
  map fst (columns (setitem k c df)) = map fst (columns df).
Proof. apply keys_replace. Qed.

Lemma find_setitem_other (k k0 : string) (c : list cell) (df : DataFrame) :
  k <> k0 -> find k (columns (setitem k0 c df)) = find k (columns df).
Proof. apply find_replace_other. Qed.

Lemma find_setitem_same (k : string) (c : list cell) (df : DataFrame) :
  find k (columns (setitem k c df)) = Some c.
Proof. apply find_replace_same. Qed.

Lemma keys_coerce_fields (fs : list string) (df : DataFrame) :
  map fst (columns (fold_left (coerce_field to_numeric_scalar) fs df))
  = map fst (columns df).
Proof.
  revert df. induction fs as [|f fs IH]; intros df; simpl; [reflexivity|].
  rewrite IH. unfold coerce_field.
  destruct (find f (columns df)) as [col|] eqn:Hf; [|reflexivity].
  simpl. apply keys_replace. congruence.
Qed.

Lemma keys_of_records (fs : list Json.object) :
  map fst (columns (of_records fs)) = labels fs.
Proof.
  unfold of_records; simpl. rewrite map_map. simpl. apply map_id.
Qed.

(** The steps of a run that returns a frame, laid out. *)
Lemma process_data_steps (fs : list Json.object) (df : DataFrame) :
  run (Some {| feeds := Some fs |}) = Returned (Some df) ->
  exists stamps,
    find "created_at" (columns (of_records fs)) <> None
    /\ to_datetime to_datetime_scalar
         (map (fun o => of_json (Json.get "created_at" o)) fs) = Returned stamps
    /\ let conv := fold_left (coerce_field to_numeric_scalar) numeric_fields
                     (setitem "created_at" stamps (of_records fs)) in
       (find "field8" (columns conv) = None /\ df = conv)
       \/ (exists decoded,
             traverse (decode_cell unquote_plus)
               (map (fun o => of_json (Json.get "field8" o)) fs) = Returned decoded
             /\ find "field8" (columns conv) <> None
             /\ df = setitem "field8" decoded conv).
Proof.
  destruct fs as [|o rest]; [discriminate|].
  unfold run. rewrite process_data_cons.
  remember (o :: rest) as fs eqn:Hfs.
  unfold getitem.
  destruct (find "created_at" (columns (of_records fs))) as [col|] eqn:Hcol;
    [|discriminate].
  rewrite bind_Returned.
  assert (col = map (fun o => of_json (Json.get "created_at" o)) fs) as ->.
  { rewrite find_of_records in Hcol.
    destruct (existsb _ _); congruence. }
  destruct (to_datetime to_datetime_scalar _) as [stamps|e]; [|discriminate].
  rewrite bind_Returned. cbv zeta.
  set (conv := fold_left _ _ _).
  intros Hrun. exists stamps. split; [congruence|]. split; [reflexivity|].
  destruct (find "field8" (columns conv)) as [col8|] eqn:H8.
  - right.
    assert (find "field8" (columns conv) <> None) as Hsome by congruence.
    assert (col8 = map (fun o => of_json (Json.get "field8" o)) fs) as ->.
    { unfold conv in H8.
      rewrite find_coerce_fields in H8 by apply numeric_fields_NoDup.
      change (existsb (String.eqb "field8") numeric_fields) with false in H8.
      cbv iota in H8.
      rewrite find_setitem_other in H8 by discriminate.
      rewrite find_of_records in H8. destruct (existsb _ _); congruence. }
    destruct (traverse _ _) as [decoded|e]; [|discriminate].
    rewrite bind_Returned in Hrun. injection Hrun as <-.
    exists decoded. split; [reflexivity|]. split; [exact Hsome | reflexivity].
  - left. injection Hrun as <-. split; [exact H8 | reflexivity].
Qed.

(** X1.  The frame has the keys of the feed as its columns, in the order of
    their first appearance: nothing is added and nothing is left out. *)
Theorem process_data_keeps_columns :
  forall (fs : list Json.object) (df : DataFrame),
    run (Some {| feeds := Some fs |}) = Returned (Some df) ->
    map fst (columns df) = labels fs.
Proof.
  intros fs df Hrun.
  destruct (process_data_steps fs df Hrun) as [stamps [Hc [_ Hshape]]].
  cbv zeta in Hshape.
  assert (map fst (columns (fold_left (coerce_field to_numeric_scalar) numeric_fields
                              (setitem "created_at" stamps (of_records fs))))
          = labels fs) as Hkeys.
  { rewrite keys_coerce_fields.
    rewrite keys_setitem by exact Hc. apply keys_of_records. }
  destruct Hshape as [[_ ->]|[decoded [_ [H8 ->]]]]; [exact Hkeys|].
  rewrite keys_setitem by exact H8. exact Hkeys.
Qed.

(** X2.  A column that is neither [created_at], a numeric field nor
    [field8] comes out as it went in: the values of the entries in feed
    order, NaN where an entry lacks the key. *)
Theorem process_data_leaves_other_columns :
  forall (fs : list Json.object) (df : DataFrame) (k : string),
    run (Some {| feeds := Some fs |}) = Returned (Some df) ->
    k <> "created_at"%string -> k <> "field8"%string -> ~ In k numeric_fields ->
    find k (columns df) = find k (columns (of_records fs)).
Proof.
  intros fs df k Hrun Hc H8 Hn.
  destruct (process_data_steps fs df Hrun) as [stamps [_ [_ Hshape]]].
  cbv zeta in Hshape.
  assert (find k (columns (fold_left (coerce_field to_numeric_scalar) numeric_fields
                             (setitem "created_at" stamps (of_records fs))))
          = find k (columns (of_records fs))) as Hk.
  { rewrite find_coerce_fields by apply numeric_fields_NoDup.
    destruct (existsb (String.eqb k) numeric_fields) eqn:Hex.
    - apply existsb_eqb_In in Hex. contradiction.
    - apply find_setitem_other. exact Hc. }
  destruct Hshape as [[_ ->]|[decoded [_ [_ ->]]]]; [exact Hk|].
  rewrite find_setitem_other by exact H8. exact Hk.
Qed.

(** X3.  In the frame every cell of [field8] is text: the value of the
    entry with [+] turned into a space and then unquoted, and the empty
    text where the entry has null or no [field8].  When no entry has the key
    there is no such column. *)
Theorem process_data_decodes_field8 :
  forall (fs : list Json.object) (df : DataFrame) (i : nat) (o : Json.object),
    run (Some {| feeds := Some fs |}) = Returned (Some df) ->
    nth_error fs i = Some o ->
    match find "field8" (columns df) with
    | Some col =>
        nth_error col i
        = Some (Text (match Json.get "field8" o with
                      | Some (Json.Str s) => unquote_plus (replace_plus s)
                      | _ => EmptyString
                      end))
    | None => Json.get "field8" o = None
    end.
Proof.
  intros fs df i o Hrun Hi.
  destruct (process_data_steps fs df Hrun) as [stamps [_ [_ Hshape]]].
  cbv zeta in Hshape.
  destruct Hshape as [[H8 ->]|[decoded [Hdec [_ ->]]]].
  - rewrite H8.
    rewrite find_coerce_fields in H8 by apply numeric_fields_NoDup.
    change (existsb (String.eqb "field8") numeric_fields) with false in H8.
    cbv iota in H8.
    rewrite find_setitem_other in H8 by discriminate.
    rewrite find_of_records in H8.
    destruct (existsb (String.eqb "field8") (labels fs)) eqn:Hex; [discriminate|].
    destruct (Json.get "field8" o) as [v|] eqn:Hget; [|reflexivity]. exfalso.
    assert (existsb (String.eqb "field8") (labels fs) = true) as Hin; [|congruence].
    apply existsb_eqb_In, labels_In. exists o.
    split; [apply (nth_error_In _ _ Hi)|]. apply get_keys. rewrite Hget. discriminate.
  - rewrite find_setitem_same.
    apply traverse_inv in Hdec.
    clear - Hdec Hi. revert i Hi. remember (map _ fs) as col eqn:Hcol. revert fs Hcol.
    induction Hdec as [|c d col decoded Hc _ IH]; intros fs Hcol i Hi.
    + destruct fs; [|discriminate]. destruct i; discriminate.
    + destruct fs as [|o' fs]; [discriminate|]. injection Hcol as -> ->.
      destruct i as [|i]; simpl in *.
      * injection Hi as ->. f_equal.
        unfold decode_cell in Hc.
        destruct (Json.get "field8" o) as [[|s|q]|]; simpl in Hc;
          try discriminate; injection Hc as <-; reflexivity.
      * apply (IH fs eq_refl i Hi).
Qed.

(** X4.  A number in [field8] fails the batch: once the stamps have read,
    the call of [replace] on a value that is no text raises
    AttributeError. *)
Theorem process_data_rejects_numeric_field8 :
  forall (fs : list Json.object) (o : Json.object) (q : Q),
    (forall o', In o' fs ->
       exists s t, Json.get "created_at" o' = Some (Json.Str s)
                   /\ to_datetime_scalar s = Some t) ->
    In o fs -> Json.get "field8" o = Some (Json.Num q) ->
    run (Some {| feeds := Some fs |}) = Raised AttributeError.
Proof.
  intros fs o q Hstamps Ho Hget.
  destruct fs as [|o0 rest]; [contradiction|].
  unfold run. rewrite process_data_cons.
  remember (o0 :: rest) as fs eqn:Hfs.
  unfold getitem. rewrite find_of_records.
  assert (existsb (String.eqb "created_at") (labels fs) = true) as ->.
  { apply existsb_eqb_In, labels_In. exists o. split; [exact Ho|].
    apply get_keys. destruct (Hstamps o Ho) as [s [t [-> _]]]. discriminate. }
  rewrite bind_Returned.
  destruct (traverse_total (to_datetime_cell to_datetime_scalar)
              (map (fun o => of_json (Json.get "created_at" o)) fs)) as [stamps Hs].
  { intros c Hc. apply in_map_iff in Hc. destruct Hc as [o' [<- Ho']].
    destruct (Hstamps o' Ho') as [s [t [-> Ht]]]. simpl.
    destruct (is_nat_string s); [eauto | rewrite Ht; eauto]. }
  unfold to_datetime. rewrite Hs, bind_Returned. cbv zeta.
  rewrite find_coerce_fields by apply numeric_fields_NoDup.
  change (existsb (String.eqb "field8") numeric_fields) with false. cbv iota.
  rewrite find_setitem_other by discriminate.
  rewrite find_of_records.
  assert (existsb (String.eqb "field8") (labels fs) = true) as ->.
  { apply existsb_eqb_In, labels_In. exists o. split; [exact Ho|].
    apply get_keys. rewrite Hget. discriminate. }
  rewrite (traverse_raises (decode_cell unquote_plus) AttributeError _
             (of_json (Json.get "field8" o))).
  - reflexivity.
  - intros c e'. destruct c; unfold decode_cell; simpl; congruence.
  - apply in_map_iff. exists o. split; [reflexivity | exact Ho].
  - rewrite Hget. reflexivity.
Qed.

(** X5.  A feed in which no entry has a [created_at] key fails with
    KeyError, whatever else the entries hold. *)
Theorem process_data_needs_created_at :
  forall fs : list Json.object,
    fs <> [] ->
    (forall o, In o fs -> Json.get "created_at" o = None) ->
    run (Some {| feeds := Some fs |}) = Raised (KeyError "created_at").
Proof.
  intros fs Hne Hnone.
  destruct fs as [|o rest]; [contradiction|].
  unfold run. rewrite process_data_cons.
  remember (o :: rest) as fs eqn:Hfs.
  unfold getitem. rewrite find_of_records.
  destruct (existsb (String.eqb "created_at") (labels fs)) eqn:Hex; [|reflexivity].
  apply existsb_eqb_In, labels_In in Hex. destruct Hex as [o' [Ho' Hk]].
  apply get_keys in Hk. destruct (Hk (Hnone o' Ho')).
Qed.

(** X6.  The count the sidebar reports after a load, [len(df)] or 0 for
    [None], is the number of entries of the feed, whatever the batch. *)
Theorem loaded_counts_entries :
  forall (data : option RawFeedBatch) (df : option DataFrame),
    run data = Returned df ->
    Dashboard.loaded df
    = List.length (match data with
                   | Some {| feeds := Some fs |} => fs
                   | _ => []
                   end).
Proof.
  intros data df Hrun.
  destruct df as [df|].
  - destruct data as [[[fs|]]|]; try discriminate.
    destruct (process_data_returned _ _ _ fs df Hrun) as [_ [Hrows _]].
    exact Hrows.
  - destruct data as [[[[|o rest]|]]|]; try reflexivity.
    exfalso. unfold run in Hrun. rewrite process_data_cons in Hrun.
    destruct (getitem _ _); [|discriminate]. rewrite bind_Returned in Hrun.
    destruct (to_datetime _ _); [|discriminate]. rewrite bind_Returned in Hrun.
    cbv zeta in Hrun. destruct (find _ _); [|discriminate].
    destruct (traverse _ _); discriminate.
Qed.

End NormalizerShape.

Section NormalizerShapeRuns.

Import Frame.

Let batch (fs : list Json.object) : option RawFeedBatch :=
  Some {| feeds := Some fs |}.

Lemma logged_frame :
  Readers.process_data (batch Logs.logged) = Returned (Some Logs.frame).
Proof. reflexivity. Qed.

Lemma process_data_keeps_columns_witness :
  Readers.process_data (batch Logs.logged) = Returned (Some Logs.frame)
  /\ map fst (columns Logs.frame) = labels Logs.logged.
Proof.
  split; [exact logged_frame|].
  exact (process_data_keeps_columns Readers.iso8601 Readers.decimal
           Readers.percent_decode Logs.logged Logs.frame logged_frame).
Defined.

Lemma process_data_leaves_other_columns_witness :
  ~ In "entry_id"%string numeric_fields
  /\ find "entry_id" (columns Logs.frame)
     = find "entry_id" (columns (of_records Logs.logged)).
Proof.
  assert (~ In "entry_id"%string numeric_fields) as Hn
    by (simpl; intuition discriminate).
  split; [exact Hn|].
  apply (process_data_leaves_other_columns Readers.iso8601 Readers.decimal
           Readers.percent_decode Logs.logged Logs.frame "entry_id"%string
           logged_frame); [discriminate | discriminate | exact Hn].
Defined.

Lemma process_data_decodes_field8_witness :
  nth_error Logs.logged 0 <> None
  /\ match find "field8" (columns Logs.frame) with
     | Some col => nth_error col 0 = Some (Text "WiFi connected. Signal: -67 dBm")
     | None => False
     end.
Proof.
  split; [discriminate|].
  exact (process_data_decodes_field8 Readers.iso8601 Readers.decimal
           Readers.percent_decode Logs.logged Logs.frame 0%nat _
           logged_frame eq_refl).
Defined.

Lemma process_data_rejects_numeric_field8_witness :
  Readers.process_data (batch Logs.numeric_log) = Raised AttributeError.
Proof.
  apply (process_data_rejects_numeric_field8 Readers.iso8601 Readers.decimal
           Readers.percent_decode Logs.numeric_log
           (Logs.entry (Json.Str "2024-01-15T00:00:00Z") (Json.Str "4") (Json.Num 7)) 7).
  - intros o' [<-|[]]. eexists _, _. split; reflexivity.
  - left. reflexivity.
  - reflexivity.
Defined.

Lemma process_data_needs_created_at_witness :
  Readers.process_data (batch Logs.unstamped) = Raised (KeyError "created_at").
Proof.
  apply (process_data_needs_created_at Readers.iso8601 Readers.decimal
           Readers.percent_decode Logs.unstamped).
  - discriminate.
  - intros o [<-|[]]. reflexivity.
Defined.

Lemma loaded_counts_entries_witness :
  Dashboard.loaded (Some Logs.frame) = 2%nat.
Proof.
  exact (loaded_counts_entries Readers.iso8601 Readers.decimal
           Readers.percent_decode (batch Logs.logged) (Some Logs.frame) logged_frame).
Defined.

End NormalizerShapeRuns.

(** ** More on freshness *)

Section FreshnessOrder.

Import Freshness Spec Severity.

Local Open Scope Q_scope.

Lemma classify_monotone (h1 h2 e : Q) :
  h1 <= h2 ->
  (rank (classify_freshness h1 e) <= rank (classify_freshness h2 e))%nat.
Proof.
  intros Hh. unfold classify_freshness.
  destruct (Qle_bool (2 * e) h1) eqn:H1.
  - apply Qle_bool_iff in H1.
    assert (Qle_bool (2 * e) h2 = true) as ->
      by (apply Qle_bool_iff; apply (Qle_trans _ h1); assumption).
    apply Nat.le_refl.
  - destruct (Qle_bool (e + (1 # 2)) h1) eqn:H2.
    + apply Qle_bool_iff in H2.
      assert (Qle_bool (e + (1 # 2)) h2 = true) as ->
        by (apply Qle_bool_iff; apply (Qle_trans _ h1); assumption).
      destruct (Qle_bool (2 * e) h2); simpl; lia.
    + simpl. lia.
Qed.

Lemma elapsed_hours_monotone (c1 c2 : Clock) (t : Timestamp) :
  (now c1 (tz t) <= now c2 (tz t))%Z ->
  elapsed_hours c1 t <= elapsed_hours c2 t.
Proof.
  intros H. unfold elapsed_hours.
  apply Qmult_le_compat_r.
  - rewrite <- Zle_Qle. lia.
  - apply Qinv_le_0_compat. discriminate.
Qed.

(** X7.  The status of a frame never gets milder as the clock moves on: of
    two readings of the clock, the later one gives Normal, Overdue, Missed
    in that order or the same status. *)
Theorem staler_is_never_milder :
  forall (c1 c2 : Clock) (df : DataFrame) (e : Q)
         (created_at : list cell) (t : Timestamp),
    Frame.empty df = false ->
    Frame.getitem "created_at" df = Returned created_at ->
    latest created_at = Returned (Some t) ->
    (now c1 (tz t) <= now c2 (tz t))%Z ->
    exists s1 s2,
      status (check_missed_updates c1 (Some df) e) = Some s1
      /\ status (check_missed_updates c2 (Some df) e) = Some s2
      /\ (rank s1 <= rank s2)%nat.
Proof.
  intros c1 c2 df e created_at t Hne Hcol Hmax Hnow.
  exists (classify_freshness (elapsed_hours c1 t) e),
         (classify_freshness (elapsed_hours c2 t) e).
  split; [apply (status_of_run c1 df e created_at t); assumption|].
  split; [apply (status_of_run c2 df e created_at t); assumption|].
  apply classify_monotone, elapsed_hours_monotone, Hnow.
Qed.

Lemma staler_is_never_milder_witness :
  exists s1 s2,
    status (check_missed_updates Logs.half_past_two (Some Logs.frame) 3) = Some s1
    /\ status (check_missed_updates Logs.seven (Some Logs.frame) 3) = Some s2
    /\ (rank s1 <= rank s2)%nat.
Proof.
  apply (staler_is_never_milder Logs.half_past_two Logs.seven Logs.frame 3
           [Stamp {| epoch_ns := 1705276800000000000; tz := Some 0%Z |};
            Stamp {| epoch_ns := 1705287600000000000; tz := Some 0%Z |}]
           {| epoch_ns := 1705287600000000000; tz := Some 0%Z |});
    try reflexivity.
  vm_compute. discriminate.
Defined.

(** X8.  With an expected interval of half an hour or less the check never
    ends Overdue, on any frame and at any time: the Missed threshold is
    reached no later than the Overdue one. *)
Theorem short_interval_never_overdue :
  forall (clock : Clock) (df : option DataFrame) (e : Q),
    e <= 1 # 2 ->
    status (check_missed_updates clock df e) <> Some Overdue.
Proof.
  intros clock df e He. unfold check_missed_updates.
  destruct df as [df|]; [|discriminate].
  destruct (Frame.empty df); [discriminate|].
  destruct (Frame.getitem "created_at" df) as [col|x]; [|discriminate].
  rewrite bind_Returned.
  destruct (latest col) as [m|x]; [|discriminate].
  rewrite bind_Returned. cbv zeta.
  destruct (ge (hours_since clock m) (e * 2)) eqn:Hm; [discriminate|].
  destruct (ge (hours_since clock m) (e + (1 # 2))) eqn:Ho; [|discriminate].
  exfalso. destruct (hours_since clock m) as [h|]; [|discriminate].
  simpl in Hm, Ho. apply Qle_bool_iff in Ho.
  assert (Qle_bool (e * 2) h = true) as Hc; [|congruence].
  apply Qle_bool_iff. apply (Qle_trans _ (e + (1 # 2))); [|exact Ho].
  setoid_replace (e * 2) with (e + e) by ring.
  apply Qplus_le_r. exact He.
Qed.

Lemma short_interval_never_overdue_witness :
  status (check_missed_updates Logs.seven (Some Logs.frame) (1 # 2)) <> Some Overdue.
Proof.
  apply (short_interval_never_overdue Logs.seven (Some Logs.frame) (1 # 2)).
  vm_compute. discriminate.
Defined.

(** X9.  A newest reading stamped at or after the clock's reading, as under
    clock skew, is Normal for every positive interval. *)
Theorem reading_from_the_future_is_normal :
  forall (clock : Clock) (df : DataFrame) (e : Q)
         (created_at : list cell) (t : Timestamp),
    Frame.empty df = false ->
    Frame.getitem "created_at" df = Returned created_at ->
    latest created_at = Returned (Some t) ->
    0 < e ->
    (now clock (tz t) <= epoch_ns t)%Z ->
    status (check_missed_updates clock (Some df) e) = Some Normal.
Proof.
  intros clock df e created_at t Hne Hcol Hmax He Hnow.
  rewrite (status_of_run clock df e created_at t) by assumption.
  assert (elapsed_hours clock t <= 0) as Hh.
  { unfold elapsed_hours. setoid_replace 0 with (0 * / inject_Z ns_per_hour) by ring.
    apply Qmult_le_compat_r.
    - change 0 with (inject_Z 0). rewrite <- Zle_Qle. lia.
    - apply Qinv_le_0_compat. discriminate. }
  unfold classify_freshness.
  assert (Qle_bool (2 * e) (elapsed_hours clock t) = false) as ->.
  { apply Bool.not_true_iff_false. rewrite Qle_bool_iff. apply Qlt_not_le.
    apply (Qle_lt_trans _ 0); [exact Hh|].
    setoid_replace 0 with (2 * 0) by ring.
    apply Qmult_lt_l; [reflexivity | exact He]. }
  assert (Qle_bool (e + (1 # 2)) (elapsed_hours clock t) = false) as ->;
    [|reflexivity].
  apply Bool.not_true_iff_false. rewrite Qle_bool_iff. apply Qlt_not_le.
  apply (Qle_lt_trans _ 0); [exact Hh|].
  apply (Qlt_trans _ e); [exact He|].
  setoid_replace e with (e + 0) at 1 by ring.
  apply Qplus_lt_r. reflexivity.
Qed.

Lemma reading_from_the_future_is_normal_witness :
  status (check_missed_updates Logs.half_past_two (Some Logs.frame) 3) = Some Normal.
Proof.
  apply (reading_from_the_future_is_normal Logs.half_past_two Logs.frame 3
           [Stamp {| epoch_ns := 1705276800000000000; tz := Some 0%Z |};
            Stamp {| epoch_ns := 1705287600000000000; tz := Some 0%Z |}]
           {| epoch_ns := 1705287600000000000; tz := Some 0%Z |});
    try reflexivity.
  vm_compute. discriminate.
Defined.

(** X10.  The maximum the check takes from [created_at] is a stamp of the
    column, no stamp of the column is newer, and it is NaT only when every
    cell is NaT: the row order does not matter. *)
Theorem latest_is_newest :
  forall (col : list cell) (m : option Timestamp),
    latest col = Returned m ->
    match m with
    | Some t =>
        In (Stamp t) col
        /\ forall u, In (Stamp u) col -> (epoch_ns u <= epoch_ns t)%Z
    | None => forall c, In c col -> c = NA
    end.
Proof.
  induction col as [|c col IH]; simpl; intros m Hm.
  - injection Hm as <-. intros c [].
  - destruct (latest col) as [m'|x]; [|discriminate].
    rewrite bind_Returned in Hm. specialize (IH m' eq_refl).
    destruct c as [|s|q|t]; try discriminate.
    + injection Hm as <-. destruct m' as [t'|].
      * destruct IH as [Hin Hmax]. split; [right; exact Hin|].
        intros u [Hu|Hu]; [discriminate | apply Hmax, Hu].
      * intros c [<-|Hc]; [reflexivity | apply IH, Hc].
    + injection Hm as <-. destruct m' as [t'|].
      * destruct IH as [Hin Hmax]. unfold later.
        destruct (Z.ltb_spec (epoch_ns t) (epoch_ns t')) as [Hlt|Hge].
        -- split; [right; exact Hin|].
           intros u [Hu|Hu]; [injection Hu as <-; lia | apply Hmax, Hu].
        -- split; [left; reflexivity|].
           intros u [Hu|Hu]; [injection Hu as <-; lia|].
           specialize (Hmax u Hu). lia.
      * split; [left; reflexivity|].
        intros u [Hu|Hu]; [injection Hu as <-; lia|].
        specialize (IH _ Hu). discriminate.
Qed.

Lemma latest_is_newest_witness :
  In (Stamp Sample.midnight) [NA; Stamp Sample.midnight]
  /\ forall u, In (Stamp u) [NA; Stamp Sample.midnight]
               -> (epoch_ns u <= epoch_ns Sample.midnight)%Z.
Proof.
  exact (latest_is_newest [NA; Stamp Sample.midnight] (Some Sample.midnight) eq_refl).
Defined.

(** X11.  A newest stamp that carries a zone is aged against the clock read
    in that zone: the offset of the machine's local time has no part in the
    result. *)
Theorem zoned_stamp_ignores_local_offset :
  forall (c1 c2 : Clock) (df : DataFrame) (e : Q)
         (created_at : list cell) (t : Timestamp) (zone : Z),
    Frame.getitem "created_at" df = Returned created_at ->
    latest created_at = Returned (Some t) ->
    tz t = Some zone ->
    utc_now c1 = utc_now c2 ->
    check_missed_updates c1 (Some df) e = check_missed_updates c2 (Some df) e.
Proof.
  intros c1 c2 df e created_at t zone Hcol Hmax Hz Hnow.
  unfold check_missed_updates. rewrite Hcol, !bind_Returned, Hmax, !bind_Returned.
  cbv zeta. unfold hours_since, now. rewrite Hz, Hnow. reflexivity.
Qed.

Lemma zoned_stamp_ignores_local_offset_witness :
  check_missed_updates Logs.half_past_two (Some Logs.frame) 3
  = check_missed_updates Logs.half_past_two_east (Some Logs.frame) 3.
Proof.
  apply (zoned_stamp_ignores_local_offset Logs.half_past_two Logs.half_past_two_east
           Logs.frame 3
           [Stamp {| epoch_ns := 1705276800000000000; tz := Some 0%Z |};
            Stamp {| epoch_ns := 1705287600000000000; tz := Some 0%Z |}]
           {| epoch_ns := 1705287600000000000; tz := Some 0%Z |} 0%Z);
    reflexivity.
Defined.

(** X12.  Where [main] displays a notification at all, it is never "No
    data available": [main] calls the check behind the very guard the
    check begins with. *)
Theorem main_never_reports_no_data :
  forall (clock : Clock) (st : Dashboard.SessionState),
    Dashboard.notification clock st
    <> Some (Returned ("danger"%string, [Lit "No data available"])).
Proof.
  intros clock st. unfold Dashboard.notification, Dashboard.shows_data.
  destruct (Dashboard.last_data st) as [df|]; [|discriminate].
  destruct (Frame.empty df) eqn:Hempty; simpl; [discriminate|].
  unfold check_missed_updates. rewrite Hempty.
  destruct (Frame.getitem "created_at" df) as [col|x]; [|discriminate].
  rewrite bind_Returned.
  destruct (latest col) as [m|x]; [|discriminate].
  rewrite bind_Returned. cbv zeta.
  destruct (ge _ _); [discriminate|]. destruct (ge _ _); discriminate.
Qed.

End FreshnessOrder.

(** ** Printed numbers *)

Section PrintedNumbers.

Import Signal.

Local Open Scope string_scope.

Lemma digits_of_uint_acc (d : Decimal.uint) (acc : positive) :
  digits_value (Zpos acc) (NilEmpty.string_of_uint d) = Zpos (Pos.of_uint_acc d acc).
Proof.
  revert acc.
  induction d; intros acc;
    cbn [NilEmpty.string_of_uint digits_value Pos.of_uint_acc];
    try reflexivity; rewrite <- IHd; f_equal;
    match goal with
    | |- context [Z.of_nat ?n] =>
        let v := eval vm_compute in (Z.of_nat n) in change (Z.of_nat n) with v
    end; lia.
Qed.

Lemma digits_of_uint (d : Decimal.uint) :
  digits_value 0 (NilEmpty.string_of_uint d) = Z.of_N (Pos.of_uint d).
Proof.
  induction d; simpl; try reflexivity; try exact IHd;
    apply (digits_of_uint_acc d).
Qed.

Lemma all_digits_of_uint (d : Decimal.uint) :
  all is_digit (NilEmpty.string_of_uint d) = true.
Proof. induction d; simpl; try reflexivity; exact IHd. Qed.

Lemma string_of_uint_nonnil (d : Decimal.uint) :
  d <> Decimal.Nil ->
  NilZero.string_of_uint d = NilEmpty.string_of_uint d
  /\ NilEmpty.string_of_uint d <> EmptyString.
Proof. destruct d; intros H; try contradiction; split; try reflexivity; discriminate. Qed.

(** [str] writes an optional minus and then digits, and the digits read
    back as the number. *)
Lemma str_digits (n : Z) :
  exists (negative : bool) (ds : string),
    Status.str n = sign_text negative ++ ds
    /\ all is_digit ds = true /\ ds <> EmptyString
    /\ group_value negative ds = n.
Proof.
  unfold Status.str. destruct n as [|p|p]; simpl.
  - exists false, "0". repeat split; discriminate.
  - destruct (string_of_uint_nonnil (Pos.to_uint p)) as [-> Hne];
      [apply Unsigned.to_uint_nonnil|].
    exists false, (NilEmpty.string_of_uint (Pos.to_uint p)).
    split; [reflexivity|]. split; [apply all_digits_of_uint|]. split; [exact Hne|].
    simpl. rewrite digits_of_uint, Unsigned.of_to. reflexivity.
  - destruct (string_of_uint_nonnil (Pos.to_uint p)) as [-> Hne];
      [apply Unsigned.to_uint_nonnil|].
    exists true, (NilEmpty.string_of_uint (Pos.to_uint p)).
    split; [reflexivity|]. split; [apply all_digits_of_uint|]. split; [exact Hne|].
    simpl. rewrite digits_of_uint, Unsigned.of_to. reflexivity.
Qed.

Lemma str_inj (a b : Z) : Status.str a = Status.str b -> a = b.
Proof.
  unfold Status.str. intros H. apply DecimalZ.to_int_inj.
  assert (forall n, Z.to_int n <> Decimal.Pos Decimal.Nil
                    /\ Z.to_int n <> Decimal.Neg Decimal.Nil) as Hnn.
  { intros [|p|p]; simpl; split; try discriminate;
      intros E; injection E; apply Unsigned.to_uint_nonnil. }
  assert (Some (Z.to_int a) = Some (Z.to_int b)) as E; [|congruence].
  rewrite <- (NilZero.isi (Z.to_int a)), <- (NilZero.isi (Z.to_int b)), H;
    try apply Hnn. reflexivity.
Qed.

(** X13.  A log line that reports an integer in the form the pattern
    expects gives that integer back: "Signal:", any white space, the number
    as [str] prints it, any white space, "dBm", whatever follows. *)
Theorem signal_of_printed_number :
  forall (n : Z) (ws1 ws2 rest : string),
    all is_space ws1 = true -> all is_space ws2 = true ->
    extract_signal_strength
      (Text ("Signal:" ++ ws1 ++ Status.str n ++ ws2 ++ "dBm" ++ rest)) = Some n.
Proof.
  intros n ws1 ws2 rest H1 H2.
  change (extract_signal_strength (Text ?s)) with (search s).
  rewrite search_eq.
  assert (match_here ("Signal:" ++ ws1 ++ Status.str n ++ ws2 ++ "dBm" ++ rest)
          = Some n) as ->; [|reflexivity].
  apply match_here_spec.
  destruct (str_digits n) as [negative [ds [-> [Hds [Hne Hn]]]]].
  exists ws1, negative, ds, ws2, rest.
  rewrite append_assoc. repeat split; auto.
Qed.

Lemma signal_of_printed_number_witness :
  extract_signal_strength (Text "Signal: -67 dBm (weak)") = Some (-67)%Z.
Proof.
  exact (signal_of_printed_number (-67) " " " " " (weak)" eq_refl eq_refl).
Defined.

End PrintedNumbers.

(** ** Labels and colours *)

Section LabelFacts.

Import Status.

Local Open Scope string_scope.

Lemma status_map_cases (z : Z) (label : string) :
  status_map z = Some label ->
  (z = 1 /\ label = "🔄 Upload Retry Success")
  \/ (z = 2 /\ label = "📶 WiFi Retry Success")
  \/ (z = 3 /\ label = "🔋 Low Battery Warning")
  \/ (z = 4 /\ label = "✅ Normal Reading").
Proof.
  intros H.
  destruct (Z.eq_dec z 1) as [->|H1]; [injection H as <-; tauto|].
  destruct (Z.eq_dec z 2) as [->|H2]; [injection H as <-; tauto|].
  destruct (Z.eq_dec z 3) as [->|H3]; [injection H as <-; tauto|].
  destruct (Z.eq_dec z 4) as [->|H4]; [injection H as <-; tauto|].
  rewrite status_map_other in H by assumption. discriminate.
Qed.

(** X14.  The label tells the status apart: two cells with the same label
    are both absent or have the same integer part. *)
Theorem label_determines_code :
  forall x y : number,
    get_status_text x = get_status_text y ->
    option_map int x = option_map int y.
Proof.
  intros [p|] [q|]; unfold get_status_text; simpl; intros H.
  - f_equal.
    destruct (status_map (int p)) as [lp|] eqn:Hp;
      destruct (status_map (int q)) as [lq|] eqn:Hq.
    + apply status_map_cases in Hp, Hq.
      destruct Hp as [[-> ->]|[[-> ->]|[[-> ->]|[-> ->]]]];
        destruct Hq as [[-> ->]|[[-> ->]|[[-> ->]|[-> ->]]]];
        try reflexivity; discriminate.
    + apply status_map_cases in Hp.
      destruct Hp as [[_ ->]|[[_ ->]|[[_ ->]|[_ ->]]]]; discriminate.
    + apply status_map_cases in Hq.
      destruct Hq as [[_ ->]|[[_ ->]|[[_ ->]|[_ ->]]]]; discriminate.
    + injection H as H. apply str_inj. exact H.
  - destruct (status_map (int p)) as [lp|] eqn:Hp; [|discriminate].
    apply status_map_cases in Hp.
    destruct Hp as [[_ ->]|[[_ ->]|[[_ ->]|[_ ->]]]]; discriminate.
  - destruct (status_map (int q)) as [lq|] eqn:Hq; [|discriminate].
    apply status_map_cases in Hq.
    destruct Hq as [[_ ->]|[[_ ->]|[[_ ->]|[_ ->]]]]; discriminate.
  - reflexivity.
Qed.

Lemma label_determines_code_witness :
  option_map int (Some (9 # 2)%Q) = option_map int (Some 4%Q).
Proof.
  exact (label_determines_code (Some (9 # 2)%Q) (Some 4%Q) eq_refl).
Defined.

(** X15.  The colour of a bar goes with its height: red exactly where two
    attempts are counted, blue exactly where the status code is absent, and
    green on every other row. *)
Theorem colour_follows_attempts :
  forall x : number,
    (status_color x = "red" <-> attempts x = 2)
    /\ (status_color x = "blue" <-> x = None)
    /\ (status_color x = "green" <-> attempts x = 1 /\ x <> None).
Proof.
  intros x. unfold status_color, attempts.
  destruct (in_1_2 x) eqn:Hin.
  - destruct x as [q|]; [|discriminate].
    repeat split; intros; try discriminate; try reflexivity.
    destruct H; discriminate.
  - destruct x as [q|]; simpl.
    + repeat split; intros; try discriminate; try reflexivity.
    + repeat split; intros; try discriminate; try reflexivity.
      destruct H as [_ H]. contradiction.
Qed.

End LabelFacts.

(** ** The dashboard *)

Section DashboardFacts.

Import Dashboard.

Lemma retry_is_two_attempts (c : cell) :
  (equals 1 c || equals 2 c)%bool = (Status.attempts (value c) =? 2)%Z.
Proof.
  destruct c as [|s|q|t]; try reflexivity.
  unfold Status.attempts, value, equals, Status.in_1_2.
  destruct (Qeq_bool q 1 || Qeq_bool q 2)%bool; reflexivity.
Qed.

(** X16.  The Retry Attempts card and the attempts chart agree: the card
    counts the rows whose bar has height two, and the bars add up to the
    number of rows plus that count. *)
Theorem retry_count_matches_attempts :
  forall field4 : list cell,
    retry_count field4
    = List.length (filter (Z.eqb 2) (attempts_column field4))
    /\ fold_right Z.add 0%Z (attempts_column field4)
       = (Z.of_nat (List.length field4) + Z.of_nat (retry_count field4))%Z.
Proof.
  intros field4. unfold retry_count, attempts_column.
  induction field4 as [|c col [IH1 IH2]]; [split; reflexivity|].
  cbn [map filter fold_right List.length].
  rewrite retry_is_two_attempts, (Z.eqb_sym 2).
  assert (Status.attempts (value c) = 1 \/ Status.attempts (value c) = 2)%Z
    as [H|H].
  { unfold Status.attempts. destruct (Status.in_1_2 _); [right; reflexivity|].
    destruct (Status.notna _); left; reflexivity. }
  - rewrite H. simpl Z.eqb. cbv iota. split; [exact IH1|]. rewrite IH2. lia.
  - rewrite H. simpl Z.eqb. cbv iota. cbn [List.length].
    split; [f_equal; exact IH1|]. rewrite IH2. lia.
Qed.

(** X17.  The table shows the twenty most recent rows, or all of them when
    there are fewer, newest first; its first row is the last row of the
    frame, the one the cards read their current values from. *)
Theorem table_shows_newest_first :
  forall (A : Type) (rows : list A),
    table_rows rows = firstn 20 (rev rows)
    /\ List.length (table_rows rows) = Nat.min 20 (List.length rows)
    /\ forall d : A, hd d (table_rows rows) = last rows d.
Proof.
  intros A rows.
  assert (table_rows rows = firstn 20 (rev rows)) as Heq
    by (unfold table_rows, tail; rewrite firstn_rev; reflexivity).
  split; [exact Heq|]. rewrite Heq. split.
  - rewrite length_firstn, length_rev. reflexivity.
  - intros d. destruct rows as [|a rows _] using rev_ind; [reflexivity|].
    rewrite rev_app_distr, last_last. reflexivity.
Qed.

(** X19.  A refresh that fetches nothing changes nothing: with no channel
    id, or when the request fails, the session state is the one before,
    and the notice is no report of a load. *)
Theorem failed_refresh_keeps_state :
  forall (normalize : option RawFeedBatch -> outcome (option DataFrame))
         (http_get : string -> option RawFeedBatch)
         (channel_id key : string) (results time : Z) (st : SessionState),
    channel_id = EmptyString
    \/ fetch_thingspeak_data http_get channel_id key results = None ->
    exists n, refresh normalize http_get channel_id key results time st
              = Returned (st, n)
              /\ forall entries, n <> Loaded entries.
Proof.
  intros normalize http_get channel_id key results time st H. unfold refresh.
  destruct channel_id as [|c rest].
  - exists EnterChannel. split; [reflexivity | discriminate].
  - destruct H as [H|H]; [discriminate|]. rewrite H.
    exists FailedToFetch. split; [reflexivity | discriminate].
Qed.

Lemma failed_refresh_keeps_state_witness :
  exists n,
    refresh Readers.process_data Logs.offline "2418" EmptyString 20 0
      {| last_data := Some Logs.frame; last_update := None |}
    = Returned ({| last_data := Some Logs.frame; last_update := None |}, n)
    /\ forall entries, n <> Loaded entries.
Proof.
  apply (failed_refresh_keeps_state Readers.process_data Logs.offline "2418"
           EmptyString 20 0 {| last_data := Some Logs.frame; last_update := None |}).
  right. reflexivity.
Defined.

(** X20.  An answer without entries wipes the dashboard: when the fetch
    succeeds with a missing or empty feed list, the frame loaded before is
    replaced by [None], zero entries are reported, and the main content is
    no longer shown. *)
Theorem empty_answer_discards_data :
  forall (to_datetime_scalar : string -> option Timestamp)
         (to_numeric_scalar : string -> option Q)
         (unquote_plus : string -> string)
         (http_get : string -> option RawFeedBatch)
         (channel_id key : string) (results time : Z) (st : SessionState)
         (data : RawFeedBatch),
    channel_id <> EmptyString ->
    fetch_thingspeak_data http_get channel_id key results = Some data ->
    feeds data = None \/ feeds data = Some [] ->
    let st' := {| last_data := None; last_update := Some time |} in
    refresh (process_data to_datetime_scalar to_numeric_scalar unquote_plus)
      http_get channel_id key results time st
    = Returned (st', Loaded 0)
    /\ shows_data st' = None.
Proof.
  intros tdt tnum unq http_get channel_id key results time st data Hc Hf He st'.
  unfold refresh. destruct channel_id; [contradiction|].
  rewrite Hf. split; [|reflexivity].
  destruct data as [fs]. simpl in He.
  destruct He as [->| ->]; reflexivity.
Qed.

Lemma empty_answer_discards_data_witness :
  refresh Readers.process_data Logs.drained "2418" EmptyString 20 5
    {| last_data := Some Logs.frame; last_update := None |}
  = Returned ({| last_data := None; last_update := Some 5%Z |}, Loaded 0).
Proof.
  exact (proj1 (empty_answer_discards_data Readers.iso8601 Readers.decimal
                  Readers.percent_decode Logs.drained "2418" EmptyString 20 5
                  {| last_data := Some Logs.frame; last_update := None |}
                  {| feeds := Some [] |}
                  ltac:(discriminate) eq_refl (or_intror eq_refl))).
Defined.

(** X21.  After a run of [main] that reports a positive number of loaded
    entries: with auto-refresh off the run ends on the main content of a
    frame with that many rows, and the notification is a status with the age
    of the newest reading, never an exception; with auto-refresh on the run
    is halted for a rerun and the main content is not reached. *)
Theorem loaded_frame_is_shown_or_rerun :
  forall (to_datetime_scalar : string -> option Timestamp)
         (to_numeric_scalar : string -> option Q)
         (unquote_plus : string -> string)
         (http_get : string -> option RawFeedBatch)
         (button auto_refresh : bool)
         (channel_id key : string) (results time : Z) (st st' : SessionState)
         (entries : nat) (shown : page)
         (total_seconds : Z -> PrimFloat.float) (clock : Freshness.Clock),
    main_pass (process_data to_datetime_scalar to_numeric_scalar unquote_plus)
      http_get button auto_refresh channel_id key results time st
    = Returned (st', Some (Loaded entries), shown) ->
    (0 < entries)%nat ->
    if auto_refresh then shown = Rerun
    else
      exists df kind msg,
        shown = MainContent df
        /\ last_data st' = Some df
        /\ nrows df = entries
        /\ notification_in_doubles total_seconds clock st'
           = Some (Returned (kind, msg))
        /\ Freshness.status_of kind <> None.
Proof.
  intros tdt tnum unq http_get button auto_refresh channel_id key results time
         st st' entries shown total_seconds clock.
  unfold main_pass. destruct (button || auto_refresh)%bool; [|discriminate].
  unfold refresh. destruct channel_id; [discriminate|].
  destruct (fetch_thingspeak_data _ _ _ _) as [data|]; [|discriminate].
  destruct (process_data tdt tnum unq (Some data)) as [[df|]|e] eqn:Hrun;
    try discriminate; rewrite !bind_Returned.
  - destruct auto_refresh.
    + intros H _. injection H as _ _ <-. reflexivity.
    + intros H _. injection H as <- <- <-.
      pose proof (process_data_not_empty _ _ _ _ _ Hrun) as Hne.
      destruct (check_missed_updates_after_process_data tdt tnum unq
                  total_seconds (Some data) df clock Hrun)
        as [kind [msg [Hcheck Hkind]]].
      exists df, kind, msg.
      unfold render, notification_in_doubles, shows_data. simpl last_data. cbv beta iota.
      rewrite Hne. cbn [negb]. cbv beta iota.
      repeat split; [rewrite Hcheck; reflexivity | exact Hkind].
  - destruct auto_refresh; intros H Hpos; injection H as _ <- _;
      simpl in Hpos; lia.
Qed.

Lemma loaded_frame_is_shown_or_rerun_witness :
  exists df kind msg,
    MainContent Logs.frame = MainContent df
    /\ Some Logs.frame = Some df
    /\ nrows df = 2%nat
    /\ notification_in_doubles Binary64.total_seconds Logs.seven
         {| last_data := Some Logs.frame; last_update := Some 5%Z |}
       = Some (Returned (kind, msg))
    /\ Freshness.status_of kind <> None.
Proof.
  apply (loaded_frame_is_shown_or_rerun Readers.iso8601 Readers.decimal
           Readers.percent_decode Logs.online true false "2418" EmptyString 20 5
           {| last_data := None; last_update := None |}
           {| last_data := Some Logs.frame; last_update := Some 5%Z |}
           2 (MainContent Logs.frame) Binary64.total_seconds Logs.seven).
  - reflexivity.
  - lia.
Defined.

(** With auto-refresh on, the same load halts the run. *)
Example auto_refresh_reruns_after_a_load :
  main_pass Readers.process_data Logs.online false true "2418" EmptyString 20 5
    {| last_data := None; last_update := None |}
  = Returned ({| last_data := Some Logs.frame; last_update := Some 5%Z |},
              Some (Loaded 2), Rerun).
Proof. reflexivity. Qed.

(** X22.  The cards need the three fields they read: on a frame from a
    feed in which no entry has [field1], [field3] or [field4], computing
    the statistics raises KeyError; on a frame from a feed that has all
    three somewhere, the statistics come out, and Total Readings is the
    number of entries. *)
Theorem statistics_need_their_fields :
  forall (to_datetime_scalar : string -> option Timestamp)
         (to_numeric_scalar : string -> option Q)
         (unquote_plus : string -> string)
         (fs : list Json.object) (df : DataFrame),
    process_data to_datetime_scalar to_numeric_scalar unquote_plus
      (Some {| feeds := Some fs |}) = Returned (Some df) ->
    (forall f, In f ["field1"; "field3"; "field4"]%string ->
       (forall o, In o fs -> Json.get f o = None) ->
       exists k, statistics df = Raised (KeyError k))
    /\ ((forall f, In f ["field1"; "field3"; "field4"]%string ->
           exists o, In o fs /\ Json.get f o <> None) ->
        exists s, statistics df = Returned s
                  /\ total_readings s = List.length fs).
Proof.
  intros tdt tnum unq fs df Hrun.
  destruct (process_data_returned tdt tnum unq fs df Hrun)
    as [_ [Hrows [_ Hnum]]].
  assert (forall f, In f ["field1"; "field3"; "field4"]%string ->
            In f numeric_fields) as Hsub
    by (intros f [<-|[<-|[<-|[]]]]; simpl; tauto).
  assert (forall f, In f ["field1"; "field3"; "field4"]%string ->
            (forall o, In o fs -> Json.get f o = None) ->
            Frame.find f (columns df) = None) as Hmiss.
  { intros f Hf Hnone. rewrite (Hnum f (Hsub f Hf)).
    destruct (existsb (String.eqb f) (Frame.labels fs)) eqn:Hex; [|reflexivity].
    apply existsb_eqb_In, labels_In in Hex. destruct Hex as [o [Ho Hk]].
    apply get_keys in Hk. destruct (Hk (Hnone o Ho)). }
  assert (forall f, In f ["field1"; "field3"; "field4"]%string ->
            (exists o, In o fs /\ Json.get f o <> None) ->
            exists col, Frame.find f (columns df) = Some col) as Hhave.
  { intros f Hf [o [Ho Hk]]. rewrite (Hnum f (Hsub f Hf)).
    assert (existsb (String.eqb f) (Frame.labels fs) = true) as ->; [|eauto].
    apply existsb_eqb_In, labels_In. exists o. split; [exact Ho|].
    apply get_keys. exact Hk. }
  split.
  - intros f Hf Hnone. pose proof (Hmiss f Hf Hnone) as Hfind.
    unfold statistics, Frame.getitem.
    destruct (Frame.find "field1" (columns df)) as [c1|] eqn:H1;
      [|eexists; reflexivity].
    destruct (Frame.find "field3" (columns df)) as [c3|] eqn:H3;
      [|eexists; reflexivity].
    destruct (Frame.find "field4" (columns df)) as [c4|] eqn:H4;
      [|eexists; reflexivity].
    destruct Hf as [<-|[<-|[<-|[]]]]; congruence.
  - intros Hall. unfold statistics, Frame.getitem.
    destruct (Hhave "field1"%string) as [c1 ->]; [simpl; tauto | apply Hall; simpl; tauto|].
    destruct (Hhave "field3"%string) as [c3 ->]; [simpl; tauto | apply Hall; simpl; tauto|].
    destruct (Hhave "field4"%string) as [c4 ->]; [simpl; tauto | apply Hall; simpl; tauto|].
    rewrite !bind_Returned. eexists. split; [reflexivity|]. exact Hrows.
Qed.

Lemma statistics_need_their_fields_witness :
  (exists k,
     statistics
       {| nrows := 1;
          columns := [("created_at",
                       [Stamp {| epoch_ns := 1705276800000000000; tz := Some 0%Z |}]);
                      ("field1", [Number (83 # 2)]); ("field4", [Number 4])] |}
     = Raised (KeyError k))
  /\ exists s, statistics Logs.frame = Returned s /\ total_readings s = 2%nat.
Proof.
  split.
  - apply (proj1 (statistics_need_their_fields Readers.iso8601 Readers.decimal
                    Readers.percent_decode Logs.no_battery _ eq_refl)
             "field3"%string).
    + simpl. tauto.
    + intros o [<-|[]]. reflexivity.
  - apply (proj2 (statistics_need_their_fields Readers.iso8601 Readers.decimal
                    Readers.percent_decode Logs.logged Logs.frame eq_refl)).
    intros f Hf. exists (Logs.entry (Json.Str "2024-01-15T00:00:00Z") (Json.Str "4")
                          (Json.Str "WiFi+connected.%20Signal%3A+-67+dBm")).
    split; [left; reflexivity|].
    destruct Hf as [<-|[<-|[<-|[]]]]; discriminate.
Defined.

(** X23.  The key placeholder is never sent: a key input left as it was
    fetches with the preset's key, an input that is typed in and is not the
    word "hidden" replaces it, and the key is the placeholder only when the
    preset's own key is that word. *)
Theorem placeholder_is_never_the_key :
  forall preset_key input : string,
    api_key preset_key (key_input_default preset_key) = preset_key
    /\ (input <> EmptyString -> input <> "hidden"%string ->
        api_key preset_key input = input)
    /\ (api_key preset_key input = "hidden"%string ->
        preset_key = "hidden"%string).
Proof.
  intros preset_key input. unfold api_key, key_input_default, using_secret_key.
  split; [|split].
  - destruct (String.eqb preset_key EmptyString); reflexivity.
  - intros H1 H2. apply String.eqb_neq in H1, H2. rewrite H1, H2. reflexivity.
  - destruct (String.eqb_spec input EmptyString) as [->|H1]; simpl; [tauto|].
    destruct (String.eqb_spec input "hidden") as [->|H2]; simpl; [tauto|].
    intros H. contradiction.
Qed.

End DashboardFacts.
